(** * polytool: the standard-library HTTP front end (src/api/simple_http_server.py)

    A shallow embedding of [SimpleHTTPHandler] (request dispatch, payload
    decoding, response encoding) and of the port negotiation and chat bridge
    of [SimpleHTTPServer], followed by the properties of the service
    specification checked against it.

    Modelling choices.
    - Python values that travel through the handler (decoded JSON, agent
      results, response dictionaries) are [pyvalue]s; a [dict] is an
      association list in insertion order.  A Python [str] is a Rocq [string]
      holding its UTF-8 bytes, so [str.encode('utf-8')] is the identity on the
      representation; a [str] that UTF-8 cannot encode, and an object that
      [json.dumps] cannot serialise, are values of their own, on which the
      two calls raise.
    - Exceptions are values [exn] with a class and the text of [str(e)];
      [except C] is a test [issubclass (cls e) C].  What is thrown without
      being an [Exception] (CancelledError, SystemExit, KeyboardInterrupt)
      is a [base_exception]; no clause of the source catches it.
    - The connection is live: a write to [wfile] succeeds.
    - Calls into the Python standard library, the operating system and the
      configuration module are fields of [Env]; every theorem quantifies over
      all of them.  The agent collaborators are records of functions.
    - Effects (bytes written to the connection, the clock, the thread's event
      loop, probe sockets) are threaded through a state-and-exception monad
      [M].  Logging is write-only and is left out. *)

From Stdlib Require Import String Ascii ZArith List Bool Lia DecimalString.
Import ListNotations.
Open Scope string_scope.
Open Scope Z_scope.

(** ** Exceptions *)

(** The exception classes that the handler, the bridge and the port probe can
    meet.  Intermediate classes of the CPython hierarchy (UnicodeError,
    LookupError, ArithmeticError) are flattened into their parent. *)
Inductive exn_class : Set :=
  | Exception
  | TypeError
  | ValueError
  | UnicodeDecodeError
  | UnicodeEncodeError
  | JSONDecodeError
  | KeyError
  | AttributeError
  | RuntimeError
  | OverflowError
  | OSError
  | PermissionError
  | gaierror.

Definition exn_class_eqb (c d : exn_class) : bool :=
  match c, d with
  | Exception, Exception | TypeError, TypeError | ValueError, ValueError
  | UnicodeDecodeError, UnicodeDecodeError | JSONDecodeError, JSONDecodeError
  | UnicodeEncodeError, UnicodeEncodeError
  | KeyError, KeyError | AttributeError, AttributeError
  | RuntimeError, RuntimeError | OverflowError, OverflowError
  | OSError, OSError | PermissionError, PermissionError
  | gaierror, gaierror => true
  | _, _ => false
  end.

(** Direct base class; [Exception] is the root of everything modelled. *)
Definition base (c : exn_class) : option exn_class :=
  match c with
  | Exception => None
  | UnicodeDecodeError | UnicodeEncodeError | JSONDecodeError => Some ValueError
  | PermissionError | gaierror => Some OSError
  | _ => Some Exception
  end.

Fixpoint mro (fuel : nat) (c : exn_class) : list exn_class :=
  c :: match fuel, base c with
       | S fuel', Some b => mro fuel' b
       | _, _ => []
       end.

Definition issubclass (c d : exn_class) : bool :=
  existsb (exn_class_eqb d) (mro 3 c).

(** An exception instance: its class and [str(e)]. *)
Record exn : Set := mkExn { cls : exn_class; str : string }.

(** [socket.error] is an alias of [OSError]. *)
Definition socket_error : exn_class := OSError.

(** What can be thrown without being an [Exception]: these derive from
    [BaseException] only, and [except Exception] lets them pass. *)
Inductive base_exception : Set :=
  | CancelledError (text : string)
  | SystemExit (code : string)
  | KeyboardInterrupt.

(** The outcome of a call: a value, an exception of class [Exception], or a
    throwable outside that class. *)
Inductive result (A : Type) : Type :=
  | Ok (a : A)
  | Raise (e : exn)
  | Escape (b : base_exception).
Arguments Ok {A} a.
Arguments Raise {A} e.
Arguments Escape {A} b.

(** ** Python values *)

#[local] Set Warnings "-register-all".

(** The values of the JSON types, and two kinds of value that cannot be
    written out: [PSurrogates s] is a [str] with a lone surrogate (JSON text
    may spell one, as in "\ud800"), which UTF-8 cannot encode; [PObject t] is
    an instance of a class [t] that [json] cannot serialise, has no items and
    compares by identity.  A [PStr] is a [str] that UTF-8 can encode. *)
Inductive pyvalue : Type :=
  | PNone
  | PBool (b : bool)
  | PInt (n : Z)
  | PFloat (repr : string)
  | PStr (s : string)
  | PList (items : list pyvalue)
  | PDict (entries : list (string * pyvalue))
  | PSurrogates (s : string)
  | PObject (type : string).

Module Py.

Definition type_name (v : pyvalue) : string :=
  match v with
  | PNone => "NoneType"
  | PBool _ => "bool"
  | PInt _ => "int"
  | PFloat _ => "float"
  | PStr _ => "str"
  | PList _ => "list"
  | PDict _ => "dict"
  | PSurrogates _ => "str"
  | PObject type => type
  end.

Definition squote (s : string) : string := "'" ++ s ++ "'".

Fixpoint lookup (k : string) (d : list (string * pyvalue)) : option pyvalue :=
  match d with
  | [] => None
  | (k', v) :: d' => if String.eqb k k' then Some v else lookup k d'
  end.

(** [v == s] for a string literal [s]. *)
Definition eq_str (v : pyvalue) (s : string) : bool :=
  match v with
  | PStr t => String.eqb t s
  | _ => false
  end.

(** [needle in hay] on two strings. *)
Fixpoint str_contains (needle hay : string) : bool :=
  if String.prefix needle hay then true
  else match hay with
       | EmptyString => false
       | String _ hay' => str_contains needle hay'
       end.

(** [k in v] for a string literal [k]. *)
Definition contains (k : string) (v : pyvalue) : result bool :=
  match v with
  | PDict d => Ok (match lookup k d with Some _ => true | None => false end)
  | PList l => Ok (existsb (fun x => eq_str x k) l)
  | PStr s | PSurrogates s => Ok (str_contains k s)
  | _ => Raise (mkExn TypeError
                  ("argument of type " ++ squote (type_name v) ++ " is not iterable"))
  end.

(** [v[k]] for a string literal [k]. *)
Definition getitem (v : pyvalue) (k : string) : result pyvalue :=
  match v with
  | PDict d =>
      match lookup k d with
      | Some x => Ok x
      | None => Raise (mkExn KeyError (squote k))
      end
  | PList _ => Raise (mkExn TypeError "list indices must be integers or slices, not str")
  | PStr _ | PSurrogates _ =>
      Raise (mkExn TypeError "string indices must be integers, not 'str'")
  | _ => Raise (mkExn TypeError (squote (type_name v) ++ " object is not subscriptable"))
  end.

(** [v.get(k, default)]. *)
Definition get (v : pyvalue) (k : string) (default : pyvalue) : result pyvalue :=
  match v with
  | PDict d =>
      Ok (match lookup k d with Some x => x | None => default end)
  | _ => Raise (mkExn AttributeError
                  (squote (type_name v) ++ " object has no attribute 'get'"))
  end.

(** [range(a, b)]. *)
Definition range (a b : Z) : list Z :=
  map (fun i => a + Z.of_nat i) (seq 0 (Z.to_nat (b - a))).

(** [BufferedReader.read(n)] on the bytes still to come on the connection:
    [n] bytes (fewer at end of stream), everything for [-1].  A length that
    is no index (2^63 and more), or for which no byte string exists (from
    2^63-33), is refused; below that the buffer is taken to fit in memory. *)
Definition read (stream : string) (n : Z) : result string :=
  if n <? -1 then Raise (mkExn ValueError "read length must be non-negative or -1")
  else if n =? -1 then Ok stream
  else if 9223372036854775808 <=? n then
    Raise (mkExn OverflowError "cannot fit 'int' into an index-sized integer")
  else if 9223372036854775775 <=? n then
    Raise (mkExn OverflowError "byte string is too large")
  else Ok (String.substring 0 (Z.to_nat n) stream).

(** The class of the first value that [json.dumps] cannot serialise, in the
    order in which it walks the document. *)
Fixpoint first_object (v : pyvalue) : option string :=
  match v with
  | PObject type => Some type
  | PList items =>
      (fix walk (l : list pyvalue) : option string :=
         match l with
         | [] => None
         | x :: l' =>
             match first_object x with
             | Some type => Some type
             | None => walk l'
             end
         end) items
  | PDict entries =>
      (fix walk (l : list (string * pyvalue)) : option string :=
         match l with
         | [] => None
         | (_, x) :: l' =>
             match first_object x with
             | Some type => Some type
             | None => walk l'
             end
         end) entries
  | _ => None
  end.

(** The document holds a [str] with a lone surrogate. *)
Fixpoint has_surrogates (v : pyvalue) : bool :=
  match v with
  | PSurrogates _ => true
  | PList items =>
      (fix walk (l : list pyvalue) : bool :=
         match l with
         | [] => false
         | x :: l' => has_surrogates x || walk l'
         end) items
  | PDict entries =>
      (fix walk (l : list (string * pyvalue)) : bool :=
         match l with
         | [] => false
         | (_, x) :: l' => has_surrogates x || walk l'
         end) entries
  | _ => false
  end.

End Py.

(** ** Collaborators and environment *)

(** An agent handle.  [process request] is the outcome of driving the
    coroutine [chatbot.process(request)] to completion. *)
Record ChatBotAgent : Type := { process : pyvalue -> result pyvalue }.

(** The agent directory.  Class [AgentManager] of module [agent] is a
    collaborator outside [simple_http_server.py]; it is taken as given by its
    table of live agents and its lookup, which answers a handle or [None]. *)
Record AgentManager : Type := {
  active_agents : list (string * ChatBotAgent);
  get_agent : string -> option ChatBotAgent
}.

Record SimpleHTTPServer : Type := {
  agent_manager : AgentManager;
  default_chatbot_id : string
}.

(** [SimpleHTTPServer.__init__]: the fields the handler reads. *)
Definition SimpleHTTPServer_init (am : AgentManager) : SimpleHTTPServer :=
  {| agent_manager := am; default_chatbot_id := "default_chatbot" |}.

(** One request as the handler sees it: the request target, the value of
    [self.headers['Content-Length']] ([None] when the header is absent), the
    bytes pending on [self.rfile], and the class attribute [server_instance]. *)
Record SimpleHTTPHandler : Type := {
  path : string;
  headers_Content_Length : option string;
  rfile : string;
  server_instance : option SimpleHTTPServer
}.

(** Library, operating-system and configuration calls.  The outcome of a
    bind is a function of the address: the set of occupied ports does not
    change while the negotiation runs. *)
Record Env : Type := {
  urlparse_path : string -> result string;   (* urlparse(target).path *)
  int_str : string -> result Z;              (* int(s) on a str *)
  decode_utf8 : string -> result string;     (* bytes.decode('utf-8') *)
  json_loads : string -> result pyvalue;     (* json.loads(text) *)
  json_dumps : pyvalue -> string;            (* json.dumps(v, ensure_ascii=False, indent=2) *)
  surrogates_not_allowed : pyvalue -> string; (* str of the UnicodeEncodeError on that text *)
  isoformat_now : nat -> string;             (* datetime.now().isoformat() at a clock reading *)
  socket_bind : string -> Z -> result unit;  (* bind of a fresh probe socket *)
  HTTPServer_bind : string -> Z -> result unit; (* HTTPServer((host, port), handler) *)
  SERVER_HOST : string;                      (* settings.SERVER_HOST *)
  SERVER_PORT : Z                            (* settings.SERVER_PORT *)
}.

(** ** State and the monad *)

Inductive wire_event : Type :=
  | send_response (status_code : Z)
  | send_header (keyword value : string)
  | end_headers
  | wfile_write (data : string).

Inductive loop_event : Type :=
  | new_event_loop
  | run_until_complete (request : pyvalue).

Record state : Type := mkState {
  wfile : list wire_event;          (* written to the connection, oldest first *)
  clock : nat;                      (* readings of the wall clock so far *)
  event_loop : bool;                (* the thread has a current event loop *)
  scheduler : list loop_event;      (* scheduler activity, oldest first *)
  probes : list (string * Z);       (* probe sockets bound, oldest first *)
  httpd : option (string * Z)       (* the listener, once created *)
}.

Definition M (A : Type) : Type := state -> result A * state.

Definition ret {A} (a : A) : M A := fun st => (Ok a, st).

Definition bind {A B} (m : M A) (k : A -> M B) : M B :=
  fun st =>
    match m st with
    | (Ok a, st') => k a st'
    | (Raise e, st') => (Raise e, st')
    | (Escape b, st') => (Escape b, st')
    end.

Definition raise {A} (e : exn) : M A := fun st => (Raise e, st).

Definition lift {A} (r : result A) : M A := fun st => (r, st).

(** [try: body except <classes accepted by handler> as e: handler e]. *)
Definition try_except {A} (body : M A) (handler : exn -> option (M A)) : M A :=
  fun st =>
    match body st with
    | (Ok a, st') => (Ok a, st')
    | (Raise e, st') =>
        match handler e with
        | Some h => h st'
        | None => (Raise e, st')
        end
    | (Escape b, st') => (Escape b, st')
    end.

Definition except (c : exn_class) {A} (h : exn -> M A) (e : exn) : option (M A) :=
  if issubclass (cls e) c then Some (h e) else None.

Declare Scope py_scope.
Delimit Scope py_scope with py.
Notation "x <- m ;; k" := (bind m (fun x => k))
  (at level 61, m at next level, right associativity) : py_scope.
Notation "m ;; k" := (bind m (fun _ => k))
  (at level 61, right associativity) : py_scope.
Open Scope py_scope.

Definition emit (ev : wire_event) : M unit :=
  fun st => (Ok tt, mkState (wfile st ++ [ev]) (clock st) (event_loop st)
                            (scheduler st) (probes st) (httpd st)).

Definition sched (ev : loop_event) : M unit :=
  fun st => (Ok tt, mkState (wfile st) (clock st) (event_loop st)
                            (scheduler st ++ [ev]) (probes st) (httpd st)).

Definition tick : M nat :=
  fun st => (Ok (clock st), mkState (wfile st) (S (clock st)) (event_loop st)
                                    (scheduler st) (probes st) (httpd st)).

Definition set_event_loop : M unit :=
  fun st => (Ok tt, mkState (wfile st) (clock st) true
                            (scheduler st) (probes st) (httpd st)).

Definition probe (host : string) (port : Z) : M unit :=
  fun st => (Ok tt, mkState (wfile st) (clock st) (event_loop st)
                            (scheduler st) (probes st ++ [(host, port)]) (httpd st)).

Definition set_httpd (host : string) (port : Z) : M unit :=
  fun st => (Ok tt, mkState (wfile st) (clock st) (event_loop st)
                            (scheduler st) (probes st) (Some (host, port))).

(** The double quote character, for the texts that contain it. *)
Definition dq : string := String "034"%char EmptyString.

(** ** SimpleHTTPHandler *)

Section Service.

Variable rt : Env.

(** [datetime.now().isoformat()] *)
Definition datetime_now_isoformat : M string :=
  t <- tick ;; ret (isoformat_now rt t).

(** [int(x)] where [x] is [None] or a [str]. *)
Definition int (x : option string) : M Z :=
  match x with
  | None =>
      raise (mkExn TypeError
        "int() argument must be a string, a bytes-like object or a real number, not 'NoneType'")
  | Some s => lift (int_str rt s)
  end.

(** [json.dumps(data, ensure_ascii=False, indent=2)]: raises on the first
    value it cannot serialise. *)
Definition dumps (data : pyvalue) : result string :=
  match Py.first_object data with
  | Some type =>
      Raise (mkExn TypeError ("Object of type " ++ type ++ " is not JSON serializable"))
  | None => Ok (json_dumps rt data)
  end.

(** [response_data.encode('utf-8')], where [response_data] is the text of
    [data]: it has a lone surrogate exactly when [data] has one. *)
Definition encode (data : pyvalue) (response_data : string) : result string :=
  if Py.has_surrogates data
  then Raise (mkExn UnicodeEncodeError (surrogates_not_allowed rt data))
  else Ok response_data.

Definition _send_json_response (data : pyvalue) (status_code : Z) : M unit :=
  emit (send_response status_code) ;;
  emit (send_header "Content-Type" "application/json") ;;
  emit (send_header "Access-Control-Allow-Origin" "*") ;;
  emit end_headers ;;
  response_data <- lift (dumps data) ;;
  body <- lift (encode data response_data) ;;
  emit (wfile_write body).

Definition _send_html_response (html : string) (status_code : Z) : M unit :=
  emit (send_response status_code) ;;
  emit (send_header "Content-Type" "text/html; charset=utf-8") ;;
  emit end_headers ;;
  emit (wfile_write html).

Definition _send_error (status_code : Z) (message : string) : M unit :=
  timestamp <- datetime_now_isoformat ;;
  _send_json_response
    (PDict [("error", PStr message);
            ("status_code", PInt status_code);
            ("timestamp", PStr timestamp)])
    status_code.

Definition root_document : pyvalue :=
  PDict [("message", PStr "Welcome to Polytool API");
         ("version", PStr "0.1.0");
         ("docs", PStr "Currently using simple HTTP server. Install fastapi for full features.");
         ("status", PStr "running");
         ("endpoints",
           PDict [("/", PStr "API信息");
                  ("/health", PStr "健康检查");
                  ("/chat", PStr "POST - 与ChatBot对话")])].

Definition docs_html : string :=
  "
            <!DOCTYPE html>
            <html>
            <head><title>Polytool API文档</title></head>
            <body>
                <h1>Polytool API 简单文档</h1>
                <h2>可用端点:</h2>
                <ul>
                    <li><strong>GET /</strong> - API信息</li>
                    <li><strong>GET /health</strong> - 健康检查</li>
                    <li><strong>POST /chat</strong> - 与ChatBot对话</li>
                </ul>
                <h3>POST /chat 示例:</h3>
                <pre>
{
    " ++ dq ++ "message" ++ dq ++ ": " ++ dq ++ "你好" ++ dq ++ ",
    " ++ dq ++ "session_id" ++ dq ++ ": " ++ dq ++ "test_session" ++ dq ++ "
}
                </pre>
                <p>注意：这是简化版HTTP服务器。要获得完整功能，请安装 fastapi 和 uvicorn。</p>
            </body>
            </html>
            ".

Definition do_GET (self : SimpleHTTPHandler) : M unit :=
  path <- lift (urlparse_path rt (path self)) ;;
  if String.eqb path "/" then
    _send_json_response root_document 200
  else if String.eqb path "/health" then
    timestamp <- datetime_now_isoformat ;;
    _send_json_response
      (PDict [("status", PStr "healthy");
              ("timestamp", PStr timestamp);
              ("server", PStr "simple_http");
              ("agents_count",
                PInt (match server_instance self with
                      | Some srv => Z.of_nat (length (active_agents (agent_manager srv)))
                      | None => 0
                      end))])
      200
  else if String.eqb path "/docs" then
    _send_html_response docs_html 200
  else
    _send_error 404 "Not Found".

(** ** SimpleHTTPServer: the chat bridge *)

(** [asyncio.get_event_loop()] in a handler thread. *)
Definition get_event_loop : M unit :=
  fun st =>
    if event_loop st then (Ok tt, st)
    else (Raise (mkExn RuntimeError "There is no current event loop"), st).

Definition _process_chat_sync (self : SimpleHTTPServer) (request_data : pyvalue)
  : M pyvalue :=
  try_except
    (match get_agent (agent_manager self) (default_chatbot_id self) with
     | None =>
         timestamp <- datetime_now_isoformat ;;
         ret (PDict [("status", PStr "error");
                     ("message", PStr "ChatBot未初始化");
                     ("timestamp", PStr timestamp)])
     | Some chatbot =>
         try_except get_event_loop
           (except RuntimeError (fun _ => sched new_event_loop ;; set_event_loop)) ;;
         message <- lift (Py.getitem request_data "message") ;;
         session_id <- lift (Py.get request_data "session_id" (PStr "default")) ;;
         context <- lift (Py.get request_data "context" (PDict [])) ;;
         let request := PDict [("message", message);
                               ("session_id", session_id);
                               ("context", context)] in
         sched (run_until_complete request) ;;
         result <- lift (process chatbot request) ;;
         status <- lift (Py.getitem result "status") ;;
         if Py.eq_str status "success" then
           response <- lift (Py.getitem result "response") ;;
           session_id <- lift (Py.get request_data "session_id" (PStr "default")) ;;
           timestamp <- datetime_now_isoformat ;;
           conversation_length <- lift (Py.get result "conversation_length" (PInt 0)) ;;
           ret (PDict [("status", PStr "success");
                       ("response", response);
                       ("session_id", session_id);
                       ("timestamp", PStr timestamp);
                       ("conversation_length", conversation_length)])
         else
           message <- lift (Py.get result "message" (PStr "ChatBot处理失败")) ;;
           timestamp <- datetime_now_isoformat ;;
           ret (PDict [("status", PStr "error");
                       ("message", message);
                       ("timestamp", PStr timestamp)])
     end)
    (except Exception (fun e =>
       timestamp <- datetime_now_isoformat ;;
       ret (PDict [("status", PStr "error");
                   ("message", PStr (str e));
                   ("timestamp", PStr timestamp)]))).

(** The body of the [try] statement of [do_POST] (source lines 87-108);
    an early [return] is the end of the block. *)
Definition do_POST_try (self : SimpleHTTPHandler) : M unit :=
  content_length <- int (headers_Content_Length self) ;;
  post_data <- lift (Py.read (rfile self) content_length) ;;
  parsed <- try_except
              (text <- lift (decode_utf8 rt post_data) ;;
               request_data <- lift (json_loads rt text) ;;
               ret (Some request_data))
              (except JSONDecodeError (fun _ =>
                 _send_error 400 "Invalid JSON" ;; ret None)) ;;
  match parsed with
  | None => ret tt
  | Some request_data =>
      has_message <- lift (Py.contains "message" request_data) ;;
      if negb has_message then
        _send_error 400 "Missing 'message' field"
      else
        match server_instance self with
        | Some srv =>
            response <- _process_chat_sync srv request_data ;;
            _send_json_response response 200
        | None => _send_error 500 "Server not initialized"
        end
  end.

Definition do_POST (self : SimpleHTTPHandler) : M unit :=
  path <- lift (urlparse_path rt (path self)) ;;
  if String.eqb path "/chat" then
    try_except (do_POST_try self)
      (except Exception (fun e =>
         _send_error 500 ("Internal server error: " ++ str e)))
  else
    _send_error 404 "Not Found".

(** ** SimpleHTTPServer: port negotiation and start-up *)

Definition _is_port_in_use (host : string) (port : Z) : M bool :=
  try_except
    (probe host port ;;
     lift (socket_bind rt host port) ;;
     ret false)
    (except socket_error (fun _ => ret true)).

(** The body of [for port in ports: ...] followed by the final [raise]. *)
Fixpoint _find_free_port_loop (host : string) (ports : list Z) : M Z :=
  match ports with
  | [] => raise (mkExn RuntimeError "无法找到可用端口")
  | port :: ports' =>
      in_use <- _is_port_in_use host port ;;
      if negb in_use then ret port
      else _find_free_port_loop host ports'
  end.

Definition _find_free_port (host : string) (start_port : Z) : M Z :=
  _find_free_port_loop host (Py.range (start_port + 1) (start_port + 100)).

(** [host or settings.SERVER_HOST], [port or settings.SERVER_PORT]. *)
Definition host_or_default (host : option string) : string :=
  match host with
  | Some h => if String.eqb h "" then SERVER_HOST rt else h
  | None => SERVER_HOST rt
  end.

Definition port_or_default (port : option Z) : Z :=
  match port with
  | Some p => if p =? 0 then SERVER_PORT rt else p
  | None => SERVER_PORT rt
  end.

(** The first part of [run]: defaults, then the availability check and the
    search for another port. *)
Definition run_acquire_port (host : option string) (port : option Z) : M (string * Z) :=
  let host := host_or_default host in
  let port := port_or_default port in
  in_use <- _is_port_in_use host port ;;
  port <- (if in_use then _find_free_port host port else ret port) ;;
  ret (host, port).

(** [run] up to the start of the listener thread; the idle loop that
    follows does not return.  [except Exception as e: ...; raise] re-raises
    what it caught. *)
Definition run (host : option string) (port : option Z) : M unit :=
  hp <- run_acquire_port host port ;;
  try_except
    (lift (HTTPServer_bind rt (fst hp) (snd hp)) ;;
     set_httpd (fst hp) (snd hp))
    (except Exception (fun e => raise e)).

End Service.

(** [BaseHTTPRequestHandler.handle_one_request] calls [do_<command>]; the
    class defines the two commands below. *)
Inductive command : Set := GET | POST.

Definition handle_one_request (rt : Env) (c : command) (self : SimpleHTTPHandler) : M unit :=
  match c with
  | GET => do_GET rt self
  | POST => do_POST rt self
  end.

(** ** Vocabulary of the statements *)

(** What [_send_json_response] puts on the wire. *)
Definition json_response (rt : Env) (status_code : Z) (data : pyvalue) : list wire_event :=
  [send_response status_code;
   send_header "Content-Type" "application/json";
   send_header "Access-Control-Allow-Origin" "*";
   end_headers;
   wfile_write (json_dumps rt data)].

(** The status line and headers of a JSON response: what is on the wire
    when the serialisation of the body starts. *)
Definition json_head (status_code : Z) : list wire_event :=
  [send_response status_code;
   send_header "Content-Type" "application/json";
   send_header "Access-Control-Allow-Origin" "*";
   end_headers].

(** [json.dumps] serialises the value and UTF-8 encodes the text. *)
Definition serialisable (v : pyvalue) : Prop :=
  Py.first_object v = None /\ Py.has_surrogates v = false.

(** The dictionary that [_send_error] serialises. *)
Definition ErrorEnvelope (error : string) (status_code : Z) (timestamp : string) : pyvalue :=
  PDict [("error", PStr error);
         ("status_code", PInt status_code);
         ("timestamp", PStr timestamp)].

(** The state after one clock reading and [out] written to the connection. *)
Definition answered (st : state) (out : list wire_event) : state :=
  mkState (wfile st ++ out) (S (clock st)) (event_loop st)
          (scheduler st) (probes st) (httpd st).

(** The state after the probe sockets [ports] were bound on [host]. *)
Definition probed (st : state) (host : string) (ports : list Z) : state :=
  mkState (wfile st) (clock st) (event_loop st) (scheduler st)
          (probes st ++ map (pair host) ports) (httpd st).

(** [_is_port_in_use] answers [True] for [port]: the probe bind raised a
    [socket.error]. *)
Definition bind_refused (rt : Env) (host : string) (port : Z) : Prop :=
  exists e, socket_bind rt host port = Raise e /\ issubclass (cls e) socket_error = true.

(** A fresh connection in a thread that has no event loop yet. *)
Definition initial : state := mkState [] 0 false [] [] None.

(** The request body was read and decoded: [Content-Length] is the integer
    [n], the [n] bytes read are UTF-8 for [text]. *)
Definition body_text (rt : Env) (self : SimpleHTTPHandler) (text : string) : Prop :=
  exists s n post_data,
    headers_Content_Length self = Some s /\
    int_str rt s = Ok n /\
    Py.read (rfile self) n = Ok post_data /\
    decode_utf8 rt post_data = Ok text.

(** [int(self.headers['Content-Length'])] raises [e]: the header is missing
    or its text is not an integer literal. *)
Definition content_length_refused (rt : Env) (self : SimpleHTTPHandler) (e : exn) : Prop :=
  (headers_Content_Length self = None /\
   e = mkExn TypeError
         "int() argument must be a string, a bytes-like object or a real number, not 'NoneType'")
  \/ (exists s, headers_Content_Length self = Some s /\ int_str rt s = Raise e).

(** ** A concrete world

    The library calls on the inputs that the scenarios below use.  The
    request targets are origin-form paths or [http://] URLs without
    parameters; integers are plain decimal literals; the JSON documents are the
    request bodies listed in [json_loads]. *)
Module Scenario.

(** [s.split(c, 1)[0]] *)
Fixpoint before (c : ascii) (s : string) : string :=
  match s with
  | EmptyString => EmptyString
  | String a s' => if Ascii.eqb a c then EmptyString else String a (before c s')
  end.

(** [s[len(before c s):]] *)
Fixpoint from (c : ascii) (s : string) : string :=
  match s with
  | EmptyString => EmptyString
  | String a s' => if Ascii.eqb a c then s else from c s'
  end.

Fixpoint has (c : ascii) (s : string) : bool :=
  match s with
  | EmptyString => false
  | String a s' => Ascii.eqb a c || has c s'
  end.

Definition strip_query (url : string) : string := before "?" (before "#" url).

(** [urlparse(target).path]: query and fragment are cut off; for an absolute
    URL the authority is split off first, and an authority with an unmatched
    bracket is refused as [urlsplit] does. *)
Definition urlparse_path (target : string) : result string :=
  if String.prefix "http://" target then
    let rest := String.substring 7 (String.length target - 7) target in
    let netloc := before "/" (strip_query rest) in
    if xorb (has "[" netloc) (has "]" netloc)
    then Raise (mkExn ValueError "Invalid IPv6 URL")
    else Ok (from "/" (strip_query rest))
  else Ok (strip_query target).

(** [int(s)] on decimal literals. *)
Definition int_str (s : string) : result Z :=
  match NilZero.int_of_string s with
  | Some n => Ok (Z.of_int n)
  | None =>
      Raise (mkExn ValueError
               ("invalid literal for int() with base 10: " ++ Py.squote s))
  end.

(** Well-formed UTF-8 (RFC 3629): no overlong forms, no surrogates, nothing
    above U+10FFFF. *)
Definition between (lo hi : N) (a : ascii) : bool :=
  (lo <=? N_of_ascii a)%N && (N_of_ascii a <=? hi)%N.

Definition cont : ascii -> bool := between 128 191.

Fixpoint utf8 (s : string) : bool :=
  match s with
  | EmptyString => true
  | String a s1 =>
      if between 0 127 a then utf8 s1
      else match s1 with
           | EmptyString => false
           | String b s2 =>
               if between 194 223 a then cont b && utf8 s2
               else match s2 with
                    | EmptyString => false
                    | String c s3 =>
                        if between 224 224 a then between 160 191 b && cont c && utf8 s3
                        else if between 237 237 a then between 128 159 b && cont c && utf8 s3
                        else if between 225 239 a then cont b && cont c && utf8 s3
                        else match s3 with
                             | EmptyString => false
                             | String d s4 =>
                                 if between 240 240 a
                                 then between 144 191 b && cont c && cont d && utf8 s4
                                 else if between 241 243 a
                                 then cont b && cont c && cont d && utf8 s4
                                 else if between 244 244 a
                                 then between 128 143 b && cont c && cont d && utf8 s4
                                 else false
                             end
                    end
           end
  end.

Definition decode_utf8 (data : string) : result string :=
  if utf8 data then Ok data
  else Raise (mkExn UnicodeDecodeError "'utf-8' codec can't decode bytes")%string.

(** Request bodies. *)
Definition body_hello : string :=
  "{" ++ dq ++ "message" ++ dq ++ ":" ++ dq ++ "hello" ++ dq ++ ","
      ++ dq ++ "session_id" ++ dq ++ ":" ++ dq ++ "s1" ++ dq ++ "}".

Definition body_empty_message : string :=
  "{" ++ dq ++ "message" ++ dq ++ ":" ++ dq ++ dq ++ "}".

Definition body_no_message : string := "{}".

Definition body_not_json : string := "not-json".

Definition json_loads (text : string) : result pyvalue :=
  if String.eqb text body_hello then
    Ok (PDict [("message", PStr "hello"); ("session_id", PStr "s1")])
  else if String.eqb text body_empty_message then
    Ok (PDict [("message", PStr "")])
  else if String.eqb text body_no_message then
    Ok (PDict [])
  else
    Raise (mkExn JSONDecodeError "Expecting value: line 1 column 1 (char 0)").

(** [json.dumps(v, ensure_ascii=False, indent=2)] *)
Definition hex_digit (n : N) : string :=
  String (ascii_of_N (if (n <? 10)%N then 48 + n else 87 + n)) EmptyString.

Definition escape_char (a : ascii) : string :=
  let n := N_of_ascii a in
  if (n =? 34)%N then "\" ++ dq
  else if (n =? 92)%N then "\\"
  else if (n =? 8)%N then "\b"
  else if (n =? 12)%N then "\f"
  else if (n =? 10)%N then "\n"
  else if (n =? 13)%N then "\r"
  else if (n =? 9)%N then "\t"
  else if (n <? 32)%N then "\u00" ++ hex_digit (n / 16) ++ hex_digit (n mod 16)
  else String a EmptyString.

Fixpoint escape (s : string) : string :=
  match s with
  | EmptyString => EmptyString
  | String a s' => escape_char a ++ escape s'
  end.

Definition encode_basestring (s : string) : string := dq ++ escape s ++ dq.

Definition newline_indent (level : nat) : string :=
  String "010"%char (String.concat "" (repeat "  " level)).

Fixpoint dumps (level : nat) (v : pyvalue) : string :=
  match v with
  | PNone => "null"
  | PBool true => "true"
  | PBool false => "false"
  | PInt n => NilZero.string_of_int (Z.to_int n)
  | PFloat repr => repr
  | PStr s | PSurrogates s => encode_basestring s
  | PObject _ => ""
  | PList [] => "[]"
  | PList (x :: xs) =>
      "[" ++ newline_indent (S level) ++ dumps (S level) x
          ++ (fix rest (l : list pyvalue) : string :=
                match l with
                | [] => ""
                | y :: l' =>
                    "," ++ newline_indent (S level) ++ dumps (S level) y ++ rest l'
                end) xs
          ++ newline_indent level ++ "]"
  | PDict [] => "{}"
  | PDict ((k, x) :: es) =>
      "{" ++ newline_indent (S level) ++ encode_basestring k ++ ": " ++ dumps (S level) x
          ++ (fix rest (l : list (string * pyvalue)) : string :=
                match l with
                | [] => ""
                | (k', y) :: l' =>
                    "," ++ newline_indent (S level) ++ encode_basestring k' ++ ": "
                        ++ dumps (S level) y ++ rest l'
                end) es
          ++ newline_indent level ++ "}"
  end.

Definition json_dumps (v : pyvalue) : string := dumps 0 v.

(** The text of the UnicodeEncodeError on the text of a document whose lone
    surrogate is U+D800, written here as the three bytes of its generalised
    UTF-8 form: the position is counted in code points. *)
Definition lone_surrogate : string :=
  String "237"%char (String "160"%char (String "128"%char EmptyString)).

Fixpoint surrogate_position (s : string) : nat :=
  match s with
  | EmptyString => 0
  | String a s' =>
      match s' with
      | EmptyString => 0
      | String b _ =>
          if between 237 237 a && between 160 191 b then 0%nat
          else ((if cont a then 0 else 1) + surrogate_position s')%nat
      end
  end.

Definition surrogates_not_allowed (data : pyvalue) : string :=
  "'utf-8' codec can't encode character '\ud800' in position "
    ++ NilZero.string_of_int (Z.to_int (Z.of_nat (surrogate_position (json_dumps data))))
    ++ ": surrogates not allowed".

(** A wall clock that advances by one second per reading. *)
Definition isoformat_now (t : nat) : string :=
  "2024-01-01T12:00:" ++ (if (t <? 10)%nat then "0" else "")
    ++ NilZero.string_of_int (Z.to_int (Z.of_nat (t mod 60))).

Definition address_in_use : exn := mkExn OSError "[Errno 98] Address already in use".
Definition permission_denied : exn := mkExn PermissionError "[Errno 13] Permission denied".

(** The world in which probe binds behave as [bind] says; the listener
    uses the same table. *)
Definition world (bind : string -> Z -> result unit) : Env :=
  Build_Env urlparse_path int_str decode_utf8 json_loads json_dumps
            surrogates_not_allowed isoformat_now bind bind "127.0.0.1" 8000.

Definition free (_ : string) (_ : Z) : result unit := Ok tt.

(** The world with every port free. *)
Definition plain : Env := world free.

(** Ports [first .. last] refuse the bind with [e]; the others are free. *)
Definition refusing (first last : Z) (e : exn) (_ : string) (port : Z) : result unit :=
  if (first <=? port) && (port <=? last) then Raise e else Ok tt.

(** Agents: one that answers and counts the exchange, one whose contract
    result reports an empty conversation. *)
Definition answering_agent : ChatBotAgent :=
  {| process := fun _ =>
       Ok (PDict [("status", PStr "success");
                  ("response", PStr "hello, how can I help?");
                  ("conversation_length", PInt 1)]) |}.

Definition forgetful_agent : ChatBotAgent :=
  {| process := fun _ =>
       Ok (PDict [("status", PStr "success");
                  ("response", PStr "hello, how can I help?");
                  ("conversation_length", PInt 0)]) |}.

Fixpoint find (agent_id : string) (agents : list (string * ChatBotAgent))
  : option ChatBotAgent :=
  match agents with
  | [] => None
  | (k, a) :: agents' => if String.eqb agent_id k then Some a else find agent_id agents'
  end.

Definition server (agents : list (string * ChatBotAgent)) : SimpleHTTPServer :=
  SimpleHTTPServer_init
    {| active_agents := agents; get_agent := fun agent_id => find agent_id agents |}.

Definition decimal (n : nat) : string := NilZero.string_of_int (Z.to_int (Z.of_nat n)).

(** A POST of [body] with a correct [Content-Length]. *)
Definition post (target body : string) (srv : option SimpleHTTPServer)
  : SimpleHTTPHandler :=
  {| path := target;
     headers_Content_Length := Some (decimal (String.length body));
     rfile := body;
     server_instance := srv |}.

(** The same without the header. *)
Definition post_without_length (target body : string) (srv : option SimpleHTTPServer)
  : SimpleHTTPHandler :=
  {| path := target;
     headers_Content_Length := None;
     rfile := body;
     server_instance := srv |}.

Definition get (target : string) (srv : option SimpleHTTPServer) : SimpleHTTPHandler :=
  {| path := target;
     headers_Content_Length := None;
     rfile := "";
     server_instance := srv |}.

End Scenario.

(** ** The listener thread *)

(** [serve_forever], started by [run] in the listener thread: the requests
    are handled one after another in that thread.  An exception of class
    Exception that escapes a handler is absorbed by the socket server, which
    goes on with the next request; what is thrown outside Exception ends the
    loop and the thread.  [wfile] collects what went out on the successive
    connections. *)
Fixpoint serve_forever (rt : Env) (requests : list (command * SimpleHTTPHandler))
    (st : state) : state :=
  match requests with
  | [] => st
  | (c, self) :: requests' =>
      match handle_one_request rt c self st with
      | (Escape _, st') => st'
      | (_, st') => serve_forever rt requests' st'
      end
  end.

(** ** Vocabulary of the further statements *)

(** The two dictionaries that [_process_chat_sync] builds. *)
Definition error_result (message : pyvalue) (timestamp : string) : pyvalue :=
  PDict [("status", PStr "error");
         ("message", message);
         ("timestamp", PStr timestamp)].

Definition success_result (response session_id : pyvalue) (timestamp : string)
    (conversation_length : pyvalue) : pyvalue :=
  PDict [("status", PStr "success");
         ("response", response);
         ("session_id", session_id);
         ("timestamp", PStr timestamp);
         ("conversation_length", conversation_length)].

(** The dictionary handed to [chatbot.process]. *)
Definition agent_request (message session_id context : pyvalue) : pyvalue :=
  PDict [("message", message); ("session_id", session_id); ("context", context)].

Definition is_new_loop (ev : loop_event) : bool :=
  match ev with
  | new_event_loop => true
  | run_until_complete _ => false
  end.

Definition is_run (ev : loop_event) : bool :=
  match ev with
  | new_event_loop => false
  | run_until_complete _ => true
  end.

(** Event loops created, and coroutines driven, so far. *)
Definition loops_created (st : state) : nat := length (filter is_new_loop (scheduler st)).

Definition agent_calls (st : state) : nat := length (filter is_run (scheduler st)).

Definition is_POST (request : command * SimpleHTTPHandler) : bool :=
  match fst request with
  | POST => true
  | GET => false
  end.

(** What one call of the bridge adds to the scheduler log: a new event loop
    when an agent is there and the thread had none, then at most one
    coroutine, whose argument has the three keys of [agent_request]. *)
Definition bridge_schedule (had_loop agent : bool) (l : list loop_event) : Prop :=
  exists runs,
    l = ((if agent && negb had_loop then [new_event_loop] else []) ++ runs)%list /\
    (runs = [] \/
     agent = true /\
     exists message session_id context,
       runs = [run_until_complete (agent_request message session_id context)]).

(** The two shapes of a bridge result stamped [timestamp]. *)
Definition chat_result (timestamp : string) (response : pyvalue) : Prop :=
  (exists message, response = error_result message timestamp) \/
  (exists answer session_id conversation_length,
      response = success_result answer session_id timestamp conversation_length).

(** How a POST whose path was parsed ends: with an error envelope of status
    400, 404 or 500 and nothing else touched; with the result of the bridge
    sent with status 200; with the head of that 200 followed by the 500
    envelope when the result could not be serialised; or with a throwable
    outside [Exception] passing through before anything was written. *)
Inductive post_outcome (rt : Env) (st : state) : result unit -> state -> Prop :=
  | post_refused (status_code : Z) (error : string) :
      In status_code [400; 404; 500] ->
      post_outcome rt st (Ok tt)
        (answered st (json_response rt status_code
                        (ErrorEnvelope error status_code (isoformat_now rt (clock st)))))
  | post_bridged (response : pyvalue) (agent : bool) (l : list loop_event) :
      bridge_schedule (event_loop st) agent l ->
      chat_result (isoformat_now rt (clock st)) response ->
      post_outcome rt st (Ok tt)
        (mkState (wfile st ++ json_response rt 200 response) (S (clock st))
                 (event_loop st || agent) (scheduler st ++ l) (probes st) (httpd st))
  | post_unsent (error : string) (agent : bool) (l : list loop_event) :
      bridge_schedule (event_loop st) agent l ->
      post_outcome rt st (Ok tt)
        (mkState (wfile st ++ json_head 200
                    ++ json_response rt 500
                         (ErrorEnvelope error 500 (isoformat_now rt (S (clock st)))))
                 (S (S (clock st)))
                 (event_loop st || agent) (scheduler st ++ l) (probes st) (httpd st))
  | post_escaped (b : base_exception) (agent : bool) (l : list loop_event) :
      bridge_schedule (event_loop st) agent l ->
      post_outcome rt st (Escape b)
        (mkState (wfile st) (clock st) (event_loop st || agent) (scheduler st ++ l)
                 (probes st) (httpd st)).

(** What a GET whose path was parsed writes: one of the two fixed documents,
    the health report, or the 404 envelope. *)
Inductive get_outcome (rt : Env) (self : SimpleHTTPHandler) (st : state)
  : list wire_event -> nat -> Prop :=
  | get_root : get_outcome rt self st (json_response rt 200 root_document) (clock st)
  | get_health (agents_count : Z) :
      agents_count =
      match server_instance self with
      | Some srv => Z.of_nat (length (active_agents (agent_manager srv)))
      | None => 0
      end ->
      get_outcome rt self st
        (json_response rt 200
           (PDict [("status", PStr "healthy");
                   ("timestamp", PStr (isoformat_now rt (clock st)));
                   ("server", PStr "simple_http");
                   ("agents_count", PInt agents_count)]))
        (S (clock st))
  | get_docs :
      get_outcome rt self st
        [send_response 200;
         send_header "Content-Type" "text/html; charset=utf-8";
         end_headers;
         wfile_write docs_html]
        (clock st)
  | get_not_found :
      get_outcome rt self st
        (json_response rt 404
           (ErrorEnvelope "Not Found" 404 (isoformat_now rt (clock st))))
        (S (clock st)).

(** The state in which the bridge returns after it drove the agent on
    [request]: a loop was created if the thread had none, the coroutine was
    run, the clock was read once for the result. *)
Definition driven (st : state) (request : pyvalue) : state :=
  mkState (wfile st) (S (clock st)) true
          (scheduler st ++ (if event_loop st then [] else [new_event_loop])
                        ++ [run_until_complete request])
          (probes st) (httpd st).

(** [request_data.get("session_id", "default")] and
    [request_data.get("context", {})] on a dictionary. *)
Definition session_of (d : list (string * pyvalue)) : pyvalue :=
  match Py.lookup "session_id" d with
  | Some session_id => session_id
  | None => PStr "default"
  end.

Definition context_of (d : list (string * pyvalue)) : pyvalue :=
  match Py.lookup "context" d with
  | Some context => context
  | None => PDict []
  end.

(** ** Further cases *)
Module Cases.

Definition body_array : string := "[" ++ dq ++ "message" ++ dq ++ "]".

Definition body_number : string := "5".

Definition body_hi : string :=
  "{" ++ dq ++ "message" ++ dq ++ ":" ++ dq ++ "hi" ++ dq ++ "}".

(** Bytes that are not UTF-8. *)
Definition body_latin1 : string := String "233"%char EmptyString.

(** A session_id that is the JSON escape of U+D800, a surrogate without its
    pair: [json.loads] accepts it. *)
Definition body_surrogate : string :=
  "{" ++ dq ++ "message" ++ dq ++ ":" ++ dq ++ "hello" ++ dq ++ ","
      ++ dq ++ "session_id" ++ dq ++ ":" ++ dq ++ "\ud800" ++ dq ++ "}".

(** [json.loads] on the documents above, and as in [Scenario] elsewhere. *)
Definition json_loads (text : string) : result pyvalue :=
  if String.eqb text body_array then Ok (PList [PStr "message"])
  else if String.eqb text body_number then Ok (PInt 5)
  else if String.eqb text body_hi then Ok (PDict [("message", PStr "hi")])
  else if String.eqb text body_surrogate then
    Ok (PDict [("message", PStr "hello");
               ("session_id", PSurrogates Scenario.lone_surrogate)])
  else Scenario.json_loads text.

(** Probe binds behave as [bind], the listener's bind as [listen]. *)
Definition world (bind listen : string -> Z -> result unit) : Env :=
  Build_Env Scenario.urlparse_path Scenario.int_str Scenario.decode_utf8 json_loads
            Scenario.json_dumps Scenario.surrogates_not_allowed Scenario.isoformat_now
            bind listen "127.0.0.1" 8000.

Definition plain : Env := world Scenario.free Scenario.free.

(** Agents that fail: by an exception, by a result that says so with and
    without a message, and by a success that carries no response. *)
Definition raising_agent : ChatBotAgent :=
  {| process := fun _ => Raise (mkExn RuntimeError "model overloaded") |}.

Definition refusing_agent : ChatBotAgent :=
  {| process := fun _ =>
       Ok (PDict [("status", PStr "error"); ("message", PStr "rate limited")]) |}.

Definition mute_agent : ChatBotAgent :=
  {| process := fun _ => Ok (PDict [("status", PStr "failed")]) |}.

Definition incomplete_agent : ChatBotAgent :=
  {| process := fun _ => Ok (PDict [("status", PStr "success")]) |}.

Definition blank_agent : ChatBotAgent :=
  {| process := fun _ => Ok (PDict []) |}.

(** An agent whose coroutine is cancelled, and one whose answer is an object
    that [json.dumps] has no encoding for. *)
Definition cancelled_agent : ChatBotAgent :=
  {| process := fun _ => Escape (CancelledError "") |}.

Definition opaque_agent : ChatBotAgent :=
  {| process := fun _ =>
       Ok (PDict [("status", PStr "success");
                  ("response", PObject "Reply");
                  ("conversation_length", PInt 1)]) |}.

(** An agent that answers with the message it was given. *)
Definition echo_agent : ChatBotAgent :=
  {| process := fun request =>
       match Py.getitem request "message" with
       | Ok message =>
           Ok (PDict [("status", PStr "success");
                      ("response", message);
                      ("conversation_length", PInt 2)])
       | Raise e => Raise e
       | Escape b => Escape b
       end |}.

Definition serving (agent : ChatBotAgent) : SimpleHTTPServer :=
  Scenario.server [("default_chatbot", agent)].

(** Binds at the top of the port range: the ports from [taken] up are in
    use, and a number above 65535 is not a port. *)
Definition bind_near_top (taken : Z) (_ : string) (port : Z) : result unit :=
  if 65535 <? port then Raise (mkExn OverflowError "bind(): port must be 0-65535.")
  else if taken <=? port then Raise Scenario.address_in_use
  else Ok tt.

End Cases.

(** ** Basic facts about the embedding *)

Lemma issubclass_Exception (c : exn_class) : issubclass c Exception = true.
Proof. destruct c; reflexivity. Qed.

Lemma send_json_response_run (rt : Env) (data : pyvalue) (status_code : Z) (st : state) :
  serialisable data ->
  _send_json_response rt data status_code st =
  (Ok tt, mkState (wfile st ++ json_response rt status_code data) (clock st)
                  (event_loop st) (scheduler st) (probes st) (httpd st)).
Proof.
  intros (Hobject & Hsurrogates).
  unfold _send_json_response, dumps, encode, bind, lift, emit, json_response.
  rewrite Hobject, Hsurrogates; simpl.
  now rewrite <- !app_assoc.
Qed.

(** A document that cannot be serialised: the status line and the headers
    are on the wire when [json.dumps] or [encode] raises. *)
Lemma send_json_response_unsent (rt : Env) (data : pyvalue) (status_code : Z) (st : state) :
  ~ serialisable data ->
  exists e,
    _send_json_response rt data status_code st =
    (Raise e, mkState (wfile st ++ json_head status_code) (clock st)
                      (event_loop st) (scheduler st) (probes st) (httpd st)).
Proof.
  intros Hbad.
  unfold _send_json_response, dumps, encode, bind, lift, emit, json_head.
  destruct (Py.first_object data) as [type|] eqn:Hobject; simpl.
  - eexists. now rewrite <- !app_assoc.
  - destruct (Py.has_surrogates data) eqn:Hsurrogates; simpl.
    + eexists. now rewrite <- !app_assoc.
    + exfalso. apply Hbad. now split.
Qed.

(** The same with the exception named. *)
Lemma send_json_response_raise
    (rt : Env) (data : pyvalue) (status_code : Z) (st : state) (e : exn) :
  dumps rt data = Raise e \/
  (exists response_data,
      dumps rt data = Ok response_data /\ encode rt data response_data = Raise e) ->
  _send_json_response rt data status_code st =
  (Raise e, mkState (wfile st ++ json_head status_code) (clock st)
                    (event_loop st) (scheduler st) (probes st) (httpd st)).
Proof.
  intros Hraise.
  unfold _send_json_response, bind, lift, emit, json_head.
  destruct Hraise as [Hdumps | (response_data & Hdumps & Hencode)]; simpl.
  - rewrite Hdumps. now rewrite <- !app_assoc.
  - rewrite Hdumps, Hencode. now rewrite <- !app_assoc.
Qed.

Lemma serialisable_dec (data : pyvalue) : serialisable data \/ ~ serialisable data.
Proof.
  unfold serialisable.
  destruct (Py.first_object data); [right; intros (H & _); discriminate H|].
  destruct (Py.has_surrogates data); [right; intros (_ & H); discriminate H|].
  now left.
Qed.

Lemma serialisable_envelope (error : string) (status_code : Z) (timestamp : string) :
  serialisable (ErrorEnvelope error status_code timestamp).
Proof. split; reflexivity. Qed.

Lemma serialisable_success_document
    (response session_id conversation_length : pyvalue) (timestamp : string) :
  serialisable response ->
  serialisable session_id ->
  serialisable conversation_length ->
  serialisable (PDict [("status", PStr "success");
                       ("response", response);
                       ("session_id", session_id);
                       ("timestamp", PStr timestamp);
                       ("conversation_length", conversation_length)]).
Proof.
  intros (Ho1 & Hs1) (Ho2 & Hs2) (Ho3 & Hs3). split; cbn.
  - now rewrite Ho1, Ho2, Ho3.
  - now rewrite Hs1, Hs2, Hs3.
Qed.

Lemma send_html_response_run (html : string) (status_code : Z) (st : state) :
  _send_html_response html status_code st =
  (Ok tt, mkState (wfile st ++ [send_response status_code;
                               send_header "Content-Type" "text/html; charset=utf-8";
                               end_headers;
                               wfile_write html])
                  (clock st) (event_loop st) (scheduler st) (probes st) (httpd st)).
Proof.
  unfold _send_html_response, bind, emit; simpl.
  now rewrite <- !app_assoc.
Qed.

Lemma send_error_run (rt : Env) (status_code : Z) (message : string) (st : state) :
  _send_error rt status_code message st =
  (Ok tt, answered st (json_response rt status_code
                         (ErrorEnvelope message status_code (isoformat_now rt (clock st))))).
Proof.
  unfold _send_error, datetime_now_isoformat, bind, tick, ret.
  now rewrite send_json_response_run by apply serialisable_envelope.
Qed.


(** A [/chat] POST whose [try] body raises is answered by the handler of
    [except Exception]. *)
Lemma do_POST_chat_raise (rt : Env) (self : SimpleHTTPHandler) (st st1 : state) (e : exn) :
  urlparse_path rt (path self) = Ok "/chat" ->
  do_POST_try rt self st = (Raise e, st1) ->
  do_POST rt self st =
  (Ok tt, answered st1 (json_response rt 500
            (ErrorEnvelope ("Internal server error: " ++ str e) 500
                           (isoformat_now rt (clock st1))))).
Proof.
  intros Hpath Hbody.
  unfold do_POST, bind, lift. rewrite Hpath. cbn [String.eqb Ascii.eqb Bool.eqb].
  unfold try_except, except. rewrite Hbody, issubclass_Exception.
  apply send_error_run.
Qed.

Lemma do_POST_chat_ok (rt : Env) (self : SimpleHTTPHandler) (st st1 : state) :
  urlparse_path rt (path self) = Ok "/chat" ->
  do_POST_try rt self st = (Ok tt, st1) ->
  do_POST rt self st = (Ok tt, st1).
Proof.
  intros Hpath Hbody.
  unfold do_POST, bind, lift. rewrite Hpath. cbn [String.eqb Ascii.eqb Bool.eqb].
  unfold try_except. now rewrite Hbody.
Qed.

(** ** Payload decoding *)

(** Closes [~ In (send_response c) out] on a concrete output. *)
Ltac not_sent :=
  let H := fresh in
  vm_compute; intros H;
  repeat (destruct H as [H|H]; [discriminate H|]); exact H.

Ltac open_body H :=
  destruct H as (?s & ?n & ?post_data & ?Hlen & ?Hint & ?Hread & ?Hdec);
  unfold do_POST_try, int; rewrite Hlen;
  unfold bind, lift, try_except, ret; cbv beta iota; rewrite Hint; cbv beta iota;
  rewrite Hread; cbv beta iota; rewrite Hdec; cbv beta iota.

(** C8. A POST /chat whose body, once read and decoded as UTF-8, is rejected
    by the JSON parser is answered 400 with the error envelope whose error
    text is "Invalid JSON". *)
Theorem invalid_json_is_400
    (rt : Env) (self : SimpleHTTPHandler) (st : state) (text : string) (e : exn) :
  urlparse_path rt (path self) = Ok "/chat" ->
  body_text rt self text ->
  json_loads rt text = Raise e ->
  issubclass (cls e) JSONDecodeError = true ->
  do_POST rt self st =
  (Ok tt, answered st (json_response rt 400
            (ErrorEnvelope "Invalid JSON" 400 (isoformat_now rt (clock st))))).
Proof.
  intros Hpath Hbody Hjson Hcls.
  apply do_POST_chat_ok; [exact Hpath|].
  open_body Hbody. rewrite Hjson. unfold except. rewrite Hcls.
  now rewrite send_error_run.
Qed.

(** The body [not-json]. *)
Lemma invalid_json_is_400_witness :
  do_POST Scenario.plain (Scenario.post "/chat" Scenario.body_not_json None) initial =
  (Ok tt, answered initial (json_response Scenario.plain 400
            (ErrorEnvelope "Invalid JSON" 400 "2024-01-01T12:00:00"))).
Proof.
  apply (invalid_json_is_400 Scenario.plain
           (Scenario.post "/chat" Scenario.body_not_json None) initial "not-json"
           (mkExn JSONDecodeError "Expecting value: line 1 column 1 (char 0)")).
  - reflexivity.
  - exists "8", 8, "not-json". repeat split; reflexivity.
  - reflexivity.
  - reflexivity.
Defined.

(** C7 as stated fails: an object whose [message] is the empty string is
    not rejected; with an agent in place the answer is 200. *)
Lemma empty_message_is_not_rejected :
  body_text Scenario.plain
    (Scenario.post "/chat" Scenario.body_empty_message
       (Some (Scenario.server [("default_chatbot", Scenario.answering_agent)])))
    Scenario.body_empty_message /\
  json_loads Scenario.plain Scenario.body_empty_message =
  Ok (PDict [("message", PStr "")]) /\
  wfile (snd (do_POST Scenario.plain
                (Scenario.post "/chat" Scenario.body_empty_message
                   (Some (Scenario.server [("default_chatbot", Scenario.answering_agent)])))
                initial)) =
  json_response Scenario.plain 200
    (PDict [("status", PStr "success");
            ("response", PStr "hello, how can I help?");
            ("session_id", PStr "default");
            ("timestamp", PStr "2024-01-01T12:00:00");
            ("conversation_length", PInt 1)]) /\
  ~ In (send_response 400)
       (wfile (snd (do_POST Scenario.plain
                      (Scenario.post "/chat" Scenario.body_empty_message
                         (Some (Scenario.server
                                  [("default_chatbot", Scenario.answering_agent)])))
                      initial))).
Proof.
  split; [exists "14", 14, Scenario.body_empty_message; repeat split; reflexivity|].
  split; [reflexivity|]. split; [vm_compute; reflexivity | not_sent].
Qed.

(** C7, amended. A POST /chat whose decoded JSON object has no [message]
    key is answered 400 with the error envelope whose error text names the
    field: "Missing 'message' field". *)
Theorem missing_message_is_400
    (rt : Env) (self : SimpleHTTPHandler) (st : state) (text : string)
    (d : list (string * pyvalue)) :
  urlparse_path rt (path self) = Ok "/chat" ->
  body_text rt self text ->
  json_loads rt text = Ok (PDict d) ->
  Py.lookup "message" d = None ->
  do_POST rt self st =
  (Ok tt, answered st (json_response rt 400
            (ErrorEnvelope "Missing 'message' field" 400 (isoformat_now rt (clock st))))).
Proof.
  intros Hpath Hbody Hjson Hmsg.
  apply do_POST_chat_ok; [exact Hpath|].
  open_body Hbody. rewrite Hjson. cbv beta iota.
  unfold Py.contains. rewrite Hmsg. cbv beta iota. unfold negb.
  apply send_error_run.
Qed.

(** The body [{}]. *)
Lemma missing_message_is_400_witness :
  do_POST Scenario.plain (Scenario.post "/chat" Scenario.body_no_message None) initial =
  (Ok tt, answered initial (json_response Scenario.plain 400
            (ErrorEnvelope "Missing 'message' field" 400 "2024-01-01T12:00:00"))).
Proof.
  apply (missing_message_is_400 Scenario.plain
           (Scenario.post "/chat" Scenario.body_no_message None) initial "{}" []).
  - reflexivity.
  - exists "2", 2, "{}". repeat split; reflexivity.
  - reflexivity.
  - reflexivity.
Defined.

(** C2 as stated fails: without a [Content-Length] header the answer is
    500, not 400. *)
Lemma missing_content_length_is_500 :
  headers_Content_Length (Scenario.post_without_length "/chat" Scenario.body_hello None) = None /\
  do_POST Scenario.plain (Scenario.post_without_length "/chat" Scenario.body_hello None) initial =
  (Ok tt, answered initial (json_response Scenario.plain 500
            (ErrorEnvelope
               "Internal server error: int() argument must be a string, a bytes-like object or a real number, not 'NoneType'"
               500 "2024-01-01T12:00:00"))) /\
  ~ In (send_response 400)
       (wfile (snd (do_POST Scenario.plain
                      (Scenario.post_without_length "/chat" Scenario.body_hello None) initial))).
Proof. split; [reflexivity|]. split; [reflexivity | not_sent]. Qed.

(** C2, amended. A POST /chat whose [Content-Length] header is missing, or
    is a text that [int] refuses, is answered 500 with the error envelope
    whose error text is "Internal server error: " followed by the text of the
    conversion error. *)
Theorem bad_content_length_is_500
    (rt : Env) (self : SimpleHTTPHandler) (st : state) (e : exn) :
  urlparse_path rt (path self) = Ok "/chat" ->
  content_length_refused rt self e ->
  do_POST rt self st =
  (Ok tt, answered st (json_response rt 500
            (ErrorEnvelope ("Internal server error: " ++ str e) 500
                           (isoformat_now rt (clock st))))).
Proof.
  intros Hpath Hlen.
  apply do_POST_chat_raise; [exact Hpath|].
  unfold do_POST_try, bind, int.
  destruct Hlen as [[Hnone ->] | (s & Hsome & Hint)].
  - now rewrite Hnone.
  - rewrite Hsome. unfold lift. now rewrite Hint.
Qed.

(** The header missing, and the header [abc]. *)
Lemma bad_content_length_is_500_witness :
  do_POST Scenario.plain (Scenario.post_without_length "/chat" Scenario.body_hello None)
    initial =
  (Ok tt, answered initial (json_response Scenario.plain 500
            (ErrorEnvelope
               "Internal server error: int() argument must be a string, a bytes-like object or a real number, not 'NoneType'"
               500 "2024-01-01T12:00:00")))
  /\
  do_POST Scenario.plain
    {| path := "/chat"; headers_Content_Length := Some "abc";
       rfile := Scenario.body_hello; server_instance := None |} initial =
  (Ok tt, answered initial (json_response Scenario.plain 500
            (ErrorEnvelope
               "Internal server error: invalid literal for int() with base 10: 'abc'"
               500 "2024-01-01T12:00:00"))).
Proof.
  split.
  - apply (bad_content_length_is_500 Scenario.plain _ initial
             (mkExn TypeError
                "int() argument must be a string, a bytes-like object or a real number, not 'NoneType'")).
    + reflexivity.
    + left. split; reflexivity.
  - apply (bad_content_length_is_500 Scenario.plain _ initial
             (mkExn ValueError "invalid literal for int() with base 10: 'abc'")).
    + reflexivity.
    + right. exists "abc". split; reflexivity.
Defined.

(** ** Routing *)

(** C9. A GET whose path is none of [/], [/health], [/docs], and a POST
    whose path is not [/chat], is answered 404 with the error envelope
    (error, status_code, timestamp). *)
Theorem unmatched_route_is_404
    (rt : Env) (c : command) (self : SimpleHTTPHandler) (st : state) (p : string) :
  urlparse_path rt (path self) = Ok p ->
  match c with
  | GET => p <> "/" /\ p <> "/health" /\ p <> "/docs"
  | POST => p <> "/chat"
  end ->
  handle_one_request rt c self st =
  (Ok tt, answered st (json_response rt 404
            (ErrorEnvelope "Not Found" 404 (isoformat_now rt (clock st))))).
Proof.
  intros Hpath Hroute. destruct c; unfold handle_one_request.
  - destruct Hroute as (Hroot & Hhealth & Hdocs).
    apply String.eqb_neq in Hroot, Hhealth, Hdocs.
    unfold do_GET, bind, lift. rewrite Hpath. cbv beta iota.
    rewrite Hroot, Hhealth, Hdocs. apply send_error_run.
  - apply String.eqb_neq in Hroute.
    unfold do_POST, bind, lift. rewrite Hpath. cbv beta iota.
    rewrite Hroute. apply send_error_run.
Qed.

(** GET [/nope], and a POST to a path that only GET serves. *)
Lemma unmatched_route_is_404_witness :
  handle_one_request Scenario.plain GET (Scenario.get "/nope" None) initial =
  (Ok tt, answered initial (json_response Scenario.plain 404
            (ErrorEnvelope "Not Found" 404 "2024-01-01T12:00:00")))
  /\
  handle_one_request Scenario.plain POST
    (Scenario.post "/health" Scenario.body_hello None) initial =
  (Ok tt, answered initial (json_response Scenario.plain 404
            (ErrorEnvelope "Not Found" 404 "2024-01-01T12:00:00"))).
Proof.
  split.
  - apply (unmatched_route_is_404 Scenario.plain GET _ initial "/nope").
    + reflexivity.
    + repeat split; discriminate.
  - apply (unmatched_route_is_404 Scenario.plain POST _ initial "/health").
    + reflexivity.
    + discriminate.
Defined.

(** ** The chat bridge *)

(** C1 as stated fails: with no default agent in the directory the answer
    carries the error result, but its HTTP status is 200, not 500. *)
Lemma uninitialized_agent_is_200 :
  get_agent (agent_manager (Scenario.server [])) (default_chatbot_id (Scenario.server [])) = None /\
  do_POST Scenario.plain
    (Scenario.post "/chat" Scenario.body_hello (Some (Scenario.server []))) initial =
  (Ok tt, answered initial (json_response Scenario.plain 200
            (PDict [("status", PStr "error");
                    ("message", PStr "ChatBot未初始化");
                    ("timestamp", PStr "2024-01-01T12:00:00")]))) /\
  ~ In (send_response 500)
       (wfile (snd (do_POST Scenario.plain
                      (Scenario.post "/chat" Scenario.body_hello (Some (Scenario.server [])))
                      initial))).
Proof. split; [reflexivity|]. split; [reflexivity | not_sent]. Qed.

(** C1, amended. A POST /chat with a decodable body that contains
    [message], received when the server has no default agent, is answered
    with HTTP status 200 and the result (status "error", message
    "ChatBot未初始化", timestamp); nothing is submitted to the scheduler and the
    thread's event loop is left as it was. *)
Theorem uninitialized_agent_is_reported
    (rt : Env) (self : SimpleHTTPHandler) (st : state) (text : string)
    (request_data : pyvalue) (srv : SimpleHTTPServer) :
  urlparse_path rt (path self) = Ok "/chat" ->
  body_text rt self text ->
  json_loads rt text = Ok request_data ->
  Py.contains "message" request_data = Ok true ->
  server_instance self = Some srv ->
  get_agent (agent_manager srv) (default_chatbot_id srv) = None ->
  exists st',
    do_POST rt self st = (Ok tt, st') /\
    wfile st' =
    (wfile st ++ json_response rt 200
       (PDict [("status", PStr "error");
               ("message", PStr "ChatBot未初始化");
               ("timestamp", PStr (isoformat_now rt (clock st)))]))%list /\
    scheduler st' = scheduler st /\
    event_loop st' = event_loop st.
Proof.
  intros Hpath Hbody Hjson Hmsg Hsrv Hagent.
  exists (answered st (json_response rt 200
            (PDict [("status", PStr "error");
                    ("message", PStr "ChatBot未初始化");
                    ("timestamp", PStr (isoformat_now rt (clock st)))]))).
  split; [|now repeat split].
  apply do_POST_chat_ok; [exact Hpath|].
  open_body Hbody. rewrite Hjson. cbv beta iota.
  rewrite Hmsg, Hsrv. cbv beta iota. unfold negb.
  unfold _process_chat_sync, try_except. rewrite Hagent.
  unfold datetime_now_isoformat, bind, tick, ret.
  now rewrite send_json_response_run.
Qed.

(** The body of the happy path, sent to a server whose directory is empty. *)
Lemma uninitialized_agent_is_reported_witness :
  exists st',
    do_POST Scenario.plain
      (Scenario.post "/chat" Scenario.body_hello (Some (Scenario.server []))) initial =
    (Ok tt, st') /\
    wfile st' =
    json_response Scenario.plain 200
      (PDict [("status", PStr "error");
              ("message", PStr "ChatBot未初始化");
              ("timestamp", PStr "2024-01-01T12:00:00")]) /\
    scheduler st' = [] /\
    event_loop st' = false.
Proof.
  apply (uninitialized_agent_is_reported Scenario.plain
           (Scenario.post "/chat" Scenario.body_hello (Some (Scenario.server [])))
           initial Scenario.body_hello
           (PDict [("message", PStr "hello"); ("session_id", PStr "s1")])
           (Scenario.server [])).
  - reflexivity.
  - exists "37", 37, Scenario.body_hello. repeat split; reflexivity.
  - reflexivity.
  - reflexivity.
  - reflexivity.
  - reflexivity.
Defined.

(** C6 as stated fails: the conversation length in the answer is the one the
    agent reports, and an agent may report 0. *)
Lemma conversation_length_may_be_zero :
  process Scenario.forgetful_agent
    (PDict [("message", PStr "hello"); ("session_id", PStr "s1"); ("context", PDict [])]) =
  Ok (PDict [("status", PStr "success");
             ("response", PStr "hello, how can I help?");
             ("conversation_length", PInt 0)]) /\
  wfile (snd (do_POST Scenario.plain
                (Scenario.post "/chat" Scenario.body_hello
                   (Some (Scenario.server [("default_chatbot", Scenario.forgetful_agent)])))
                initial)) =
  json_response Scenario.plain 200
    (PDict [("status", PStr "success");
            ("response", PStr "hello, how can I help?");
            ("session_id", PStr "s1");
            ("timestamp", PStr "2024-01-01T12:00:00");
            ("conversation_length", PInt 0)]) /\
  ~ 1 <= 0.
Proof. split; [reflexivity|]. split; [vm_compute; reflexivity | lia]. Qed.

(** C6, amended. A POST /chat whose body is a JSON object with [message] and
    [session_id], against a default agent whose [process] returns a result
    with status "success" and a response, where the session_id, the response
    and the conversation length can be serialised, is answered 200 with
    status "success", the agent's response, the request's session_id, a
    timestamp, and as conversation_length the value the agent reported (0
    when it reported none).  The agent was driven once, on the thread's event
    loop. *)
Theorem chat_success
    (rt : Env) (self : SimpleHTTPHandler) (st : state) (text : string)
    (d r : list (string * pyvalue)) (message session_id response : pyvalue)
    (srv : SimpleHTTPServer) (chatbot : ChatBotAgent) :
  let request :=
    PDict [("message", message);
           ("session_id", session_id);
           ("context", match Py.lookup "context" d with Some c => c | None => PDict [] end)] in
  urlparse_path rt (path self) = Ok "/chat" ->
  body_text rt self text ->
  json_loads rt text = Ok (PDict d) ->
  Py.lookup "message" d = Some message ->
  Py.lookup "session_id" d = Some session_id ->
  server_instance self = Some srv ->
  get_agent (agent_manager srv) (default_chatbot_id srv) = Some chatbot ->
  process chatbot request = Ok (PDict r) ->
  Py.lookup "status" r = Some (PStr "success") ->
  Py.lookup "response" r = Some response ->
  serialisable response ->
  serialisable session_id ->
  serialisable (match Py.lookup "conversation_length" r with
                | Some n => n
                | None => PInt 0
                end) ->
  do_POST rt self st =
  (Ok tt,
   mkState
     (wfile st ++ json_response rt 200
        (PDict [("status", PStr "success");
                ("response", response);
                ("session_id", session_id);
                ("timestamp", PStr (isoformat_now rt (clock st)));
                ("conversation_length",
                  match Py.lookup "conversation_length" r with
                  | Some n => n
                  | None => PInt 0
                  end)]))
     (S (clock st)) true
     (scheduler st ++ (if event_loop st then [] else [new_event_loop])
                   ++ [run_until_complete request])
     (probes st) (httpd st)).
Proof.
  intros request Hpath Hbody Hjson Hmsg Hsid Hsrv Hagent Hproc Hstatus Hresp
    Hsend1 Hsend2 Hsend3.
  apply do_POST_chat_ok; [exact Hpath|].
  open_body Hbody. rewrite Hjson. cbv beta iota.
  unfold Py.contains. rewrite Hmsg, Hsrv. cbv beta iota. unfold negb.
  unfold _process_chat_sync, try_except. rewrite Hagent.
  unfold Py.getitem, Py.get, get_event_loop, datetime_now_isoformat,
    bind, lift, ret, tick, sched, set_event_loop, except.
  rewrite Hmsg, Hsid. fold request. rewrite Hproc, Hstatus, Hresp.
  destruct (event_loop st) eqn:Hloop; cbn -[json_response _send_json_response].
  all: rewrite send_json_response_run
    by (now apply serialisable_success_document); cbn -[json_response].
  - now rewrite Hloop.
  - now rewrite <- app_assoc.
Qed.

(** The happy path against an agent that answers. *)
Lemma chat_success_witness :
  do_POST Scenario.plain
    (Scenario.post "/chat" Scenario.body_hello
       (Some (Scenario.server [("default_chatbot", Scenario.answering_agent)])))
    initial =
  (Ok tt,
   mkState
     (json_response Scenario.plain 200
        (PDict [("status", PStr "success");
                ("response", PStr "hello, how can I help?");
                ("session_id", PStr "s1");
                ("timestamp", PStr "2024-01-01T12:00:00");
                ("conversation_length", PInt 1)]))
     1 true
     [new_event_loop;
      run_until_complete
        (PDict [("message", PStr "hello"); ("session_id", PStr "s1");
                ("context", PDict [])])]
     [] None).
Proof.
  apply (chat_success Scenario.plain
           (Scenario.post "/chat" Scenario.body_hello
              (Some (Scenario.server [("default_chatbot", Scenario.answering_agent)])))
           initial Scenario.body_hello
           [("message", PStr "hello"); ("session_id", PStr "s1")]
           [("status", PStr "success");
            ("response", PStr "hello, how can I help?");
            ("conversation_length", PInt 1)]
           (PStr "hello") (PStr "s1") (PStr "hello, how can I help?")
           (Scenario.server [("default_chatbot", Scenario.answering_agent)])
           Scenario.answering_agent).
  - reflexivity.
  - exists "37", 37, Scenario.body_hello. repeat split; reflexivity.
  - reflexivity.
  - reflexivity.
  - reflexivity.
  - reflexivity.
  - reflexivity.
  - reflexivity.
  - reflexivity.
  - reflexivity.
  - split; reflexivity.
  - split; reflexivity.
  - split; reflexivity.
Defined.

(** ** The bridge, case by case *)

Lemma state_eta (st : state) :
  mkState (wfile st) (clock st) (event_loop st || false) (scheduler st ++ [])
          (probes st) (httpd st) = st.
Proof. destruct st; cbn. now rewrite orb_false_r, app_nil_r. Qed.

Lemma no_schedule (had_loop : bool) : bridge_schedule had_loop false [].
Proof. exists []. split; [reflexivity | now left]. Qed.

Ltac bridge_cases :=
  unfold _process_chat_sync, try_except, except, bind, lift, ret, sched,
    set_event_loop, get_event_loop, datetime_now_isoformat, tick,
    Py.getitem, Py.get, Py.eq_str;
  repeat (cbn -[String.eqb];
          match goal with
          | |- context [issubclass (cls ?e) Exception] =>
              rewrite (issubclass_Exception (cls e))
          | |- context [match ?x with _ => _ end] =>
              lazymatch x with
              | context [match _ with _ => _ end] => fail
              | _ => destruct x eqn:?
              end
          end);
  cbn -[String.eqb].

(** Everything one call of the bridge does. *)
Lemma bridge_effects
    (rt : Env) (srv : SimpleHTTPServer) (request_data : pyvalue) (st : state) :
  let agent :=
    match get_agent (agent_manager srv) (default_chatbot_id srv) with
    | Some _ => true
    | None => false
    end in
  exists r st' l,
    _process_chat_sync rt srv request_data st = (r, st') /\
    wfile st' = wfile st /\
    event_loop st' = event_loop st || agent /\
    scheduler st' = (scheduler st ++ l)%list /\
    probes st' = probes st /\
    httpd st' = httpd st /\
    bridge_schedule (event_loop st) agent l /\
    match r with
    | Ok response =>
        clock st' = S (clock st) /\
        chat_result (isoformat_now rt (clock st)) response
    | Raise _ => False
    | Escape b =>
        clock st' = clock st /\
        exists chatbot request,
          get_agent (agent_manager srv) (default_chatbot_id srv) = Some chatbot /\
          process chatbot request = Escape b
    end.
Proof.
  bridge_cases.
  all: eexists _, _, _; (split; [reflexivity|]);
    cbn [wfile clock event_loop scheduler probes httpd].
  all: split; [reflexivity|].
  all: split; [first [assumption | reflexivity | symmetry; apply orb_false_r]|].
  all: split; [first [reflexivity | symmetry; apply app_nil_r
                      | rewrite <- app_assoc; reflexivity]|].
  all: split; [reflexivity|]; split; [reflexivity|].
  all: split;
    [ first [ exists []; split; [reflexivity | left; reflexivity]
            | eexists [_]; split;
              [reflexivity | right; split; [reflexivity | eexists _, _, _; reflexivity]] ]
    | first [ split; [reflexivity|]; eexists _, _; split; [reflexivity | eassumption]
            | split; [reflexivity|]; left; eexists; reflexivity
            | split; [reflexivity|]; right; eexists _, _, _; reflexivity ] ].
Qed.

(** The same with the final state written out. *)
Lemma bridge_run
    (rt : Env) (srv : SimpleHTTPServer) (request_data : pyvalue) (st : state) :
  exists r agent l,
    _process_chat_sync rt srv request_data st =
    (r, mkState (wfile st)
                (match r with Ok _ => S (clock st) | _ => clock st end)
                (event_loop st || agent) (scheduler st ++ l) (probes st) (httpd st)) /\
    agent = (match get_agent (agent_manager srv) (default_chatbot_id srv) with
             | Some _ => true
             | None => false
             end) /\
    bridge_schedule (event_loop st) agent l /\
    match r with
    | Ok response => chat_result (isoformat_now rt (clock st)) response
    | Raise _ => False
    | Escape b =>
        exists chatbot request,
          get_agent (agent_manager srv) (default_chatbot_id srv) = Some chatbot /\
          process chatbot request = Escape b
    end.
Proof.
  destruct (bridge_effects rt srv request_data st)
    as (r & st' & l & Hrun & Hw & He & Hs & Hp & Hh & Hsched & Hr).
  exists r,
    (match get_agent (agent_manager srv) (default_chatbot_id srv) with
     | Some _ => true
     | None => false
     end), l.
  split; [|split; [reflexivity|split; [exact Hsched|]]].
  - rewrite Hrun. f_equal. destruct st'; cbn in *. subst.
    destruct r as [response|e|b]; [| contradiction |];
      destruct Hr as (-> & _); reflexivity.
  - destruct r as [response|e|b]; [exact (proj2 Hr) | exact Hr | exact (proj2 Hr)].
Qed.

(** ** What a handler writes *)

(** The [try] body of [do_POST]: a fault before anything happened; a fault
    of the serialisation after the head of the 200 went out; or one of the
    ends of [post_outcome]. *)
Lemma do_POST_try_outcome (rt : Env) (self : SimpleHTTPHandler) (st : state) :
  (exists e, do_POST_try rt self st = (Raise e, st)) \/
  (exists e agent l,
      bridge_schedule (event_loop st) agent l /\
      do_POST_try rt self st =
      (Raise e, mkState (wfile st ++ json_head 200) (S (clock st))
                        (event_loop st || agent) (scheduler st ++ l)
                        (probes st) (httpd st))) \/
  (exists r st', do_POST_try rt self st = (r, st') /\ post_outcome rt st r st').
Proof.
  assert (Hescaped : forall b, post_outcome rt st (Escape b) st).
  { intros b. rewrite <- (state_eta st) at 2. apply post_escaped, no_schedule. }
  unfold do_POST_try, int.
  destruct (headers_Content_Length self) as [s|];
    unfold bind, raise, lift, try_except, ret, except; [|left; now eauto].
  destruct (int_str rt s) as [n|e|b];
    [|left; now eauto | right; right; now eauto].
  destruct (Py.read (rfile self) n) as [post_data|e|b];
    [|left; now eauto | right; right; now eauto].
  assert (Hinvalid :
            exists st',
              (let (r, st') := _send_error rt 400 "Invalid JSON" st in
               match r with
               | Ok _ => (Ok (@None pyvalue), st')
               | Raise e0 => (Raise e0, st')
               | Escape b0 => (Escape b0, st')
               end) = (Ok None, st') /\ post_outcome rt st (Ok tt) st').
  { rewrite send_error_run. eexists. split; [reflexivity|].
    apply post_refused. cbn. tauto. }
  destruct Hinvalid as (st400 & Hrun400 & Hout400).
  destruct (decode_utf8 rt post_data) as [text|e|b].
  2: { destruct (issubclass (cls e) JSONDecodeError); [|left; now eauto].
       right. right. rewrite Hrun400. now eauto. }
  2: { right. right. now eauto. }
  destruct (json_loads rt text) as [request_data|e|b].
  2: { destruct (issubclass (cls e) JSONDecodeError); [|left; now eauto].
       right. right. rewrite Hrun400. now eauto. }
  2: { right. right. now eauto. }
  clear st400 Hrun400 Hout400.
  destruct (Py.contains "message" request_data) as [[|]|e|b];
    [| |left; now eauto | right; right; now eauto];
    cbv beta iota; unfold negb.
  - destruct (server_instance self) as [srv|].
    + destruct (bridge_run rt srv request_data st)
        as (r & agent & l & Hrun & _ & Hsched & Hr).
      rewrite Hrun. destruct r as [response|e|b]; [| contradiction |].
      * destruct (serialisable_dec response) as [Hgood|Hbad].
        -- rewrite (send_json_response_run rt response 200 _ Hgood).
           right. right. eexists _, _. split; [reflexivity|].
           cbn [wfile clock event_loop scheduler probes httpd].
           now apply post_bridged.
        -- destruct (send_json_response_unsent rt response 200
                       (mkState (wfile st) (S (clock st)) (event_loop st || agent)
                                (scheduler st ++ l) (probes st) (httpd st)) Hbad)
             as (e & Hsend).
           rewrite Hsend. right. left. exists e, agent, l. now split.
      * right. right. eexists _, _. split; [reflexivity|]. now apply post_escaped.
    + rewrite send_error_run. right. right. eexists _, _. split; [reflexivity|].
      apply post_refused. cbn. tauto.
  - rewrite send_error_run. right. right. eexists _, _. split; [reflexivity|].
    apply post_refused. cbn. tauto.
Qed.

Lemma do_POST_outcome (rt : Env) (self : SimpleHTTPHandler) (st : state) (p : string) :
  urlparse_path rt (path self) = Ok p ->
  exists r st', do_POST rt self st = (r, st') /\ post_outcome rt st r st'.
Proof.
  intros Hpath. unfold do_POST, bind at 1, lift at 1. rewrite Hpath.
  destruct (String.eqb p "/chat").
  - unfold try_except, except.
    destruct (do_POST_try_outcome rt self st)
      as [(e & Hrun) | [(e & agent & l & Hsched & Hrun) | (r & st' & Hrun & Hout)]];
      rewrite Hrun.
    + rewrite issubclass_Exception, send_error_run. eexists _, _. split; [reflexivity|].
      apply post_refused. cbn. tauto.
    + rewrite issubclass_Exception, send_error_run. eexists _, _. split; [reflexivity|].
      unfold answered. cbn [wfile clock event_loop scheduler probes httpd].
      rewrite <- app_assoc. now apply post_unsent.
    + destruct Hout; now eauto using post_outcome.
  - rewrite send_error_run. eexists _, _. split; [reflexivity|].
    apply post_refused. cbn. tauto.
Qed.

Lemma serialisable_root_document : serialisable root_document.
Proof. split; reflexivity. Qed.

Lemma do_GET_outcome (rt : Env) (self : SimpleHTTPHandler) (st : state) (p : string) :
  urlparse_path rt (path self) = Ok p ->
  exists out t,
    do_GET rt self st =
    (Ok tt, mkState (wfile st ++ out) t (event_loop st) (scheduler st)
                    (probes st) (httpd st)) /\
    get_outcome rt self st out t.
Proof.
  intros Hpath. unfold do_GET, bind at 1, lift at 1. rewrite Hpath.
  destruct (String.eqb p "/").
  { rewrite send_json_response_run by apply serialisable_root_document.
    eexists _, _. split; [reflexivity | constructor]. }
  destruct (String.eqb p "/health").
  { unfold datetime_now_isoformat, bind, tick, ret.
    rewrite send_json_response_run by (split; reflexivity).
    eexists _, _. split; [reflexivity|]. now constructor. }
  destruct (String.eqb p "/docs").
  { rewrite send_html_response_run. eexists _, _. split; [reflexivity | constructor]. }
  rewrite send_error_run. eexists _, _. split; [reflexivity | constructor].
Qed.

(** A fault in the path parse leaves the handler at once. *)
Lemma handle_path_fault
    (rt : Env) (c : command) (self : SimpleHTTPHandler) (st : state) (e : exn) :
  urlparse_path rt (path self) = Raise e ->
  handle_one_request rt c self st = (Raise e, st).
Proof.
  intros Hpath. destruct c; cbn [handle_one_request];
    [unfold do_GET | unfold do_POST]; unfold bind at 1, lift at 1; now rewrite Hpath.
Qed.

Lemma handle_path_escape
    (rt : Env) (c : command) (self : SimpleHTTPHandler) (st : state) (b : base_exception) :
  urlparse_path rt (path self) = Escape b ->
  handle_one_request rt c self st = (Escape b, st).
Proof.
  intros Hpath. destruct c; cbn [handle_one_request];
    [unfold do_GET | unfold do_POST]; unfold bind at 1, lift at 1; now rewrite Hpath.
Qed.

Lemma In_json_response (rt : Env) (c status_code : Z) (data : pyvalue) :
  In (send_response c) (json_response rt status_code data) -> c = status_code.
Proof.
  cbn. intros [H|[H|[H|[H|[H|[]]]]]]; try discriminate H. now injection H.
Qed.

Lemma In_json_head (c status_code : Z) :
  In (send_response c) (json_head status_code) -> c = status_code.
Proof.
  cbn. intros [H|[H|[H|[H|[]]]]]; try discriminate H. now injection H.
Qed.

(** C10 as stated fails twice.  An error of the chat bridge (here: no default
    agent) is sent with status 200 as a document with the keys status,
    message and timestamp, and neither error nor status_code.  And when the
    result of the bridge cannot be encoded (here: the session_id is a lone
    surrogate), the status line on the wire is that of a 200 whose body never
    follows, and the envelope that comes after it says 500. *)
Lemma bridge_error_is_not_an_envelope :
  (let document :=
     [("status", PStr "error");
      ("message", PStr "ChatBot未初始化");
      ("timestamp", PStr "2024-01-01T12:00:00")] in
   do_POST Cases.plain
     (Scenario.post "/chat" Scenario.body_hello (Some (Scenario.server []))) initial =
   (Ok tt, answered initial (json_response Cases.plain 200 (PDict document))) /\
   Py.lookup "error" document = None /\
   Py.lookup "status_code" document = None) /\
  wfile (snd (do_POST Cases.plain
                (Scenario.post "/chat" Cases.body_surrogate
                   (Some (Cases.serving Scenario.answering_agent))) initial)) =
  (json_head 200
     ++ json_response Cases.plain 500
          (ErrorEnvelope
             ("Internal server error: 'utf-8' codec can't encode character "
                ++ "'\ud800' in position 82: surrogates not allowed")
             500 "2024-01-01T12:00:01"))%list.
Proof. split; [split; [|split] |]; reflexivity. Qed.

(** C10, amended. [_send_error] always writes one JSON response whose body
    is the dictionary with the three keys error (a string), status_code (an
    integer) and timestamp, where status_code is the status of that response;
    and, whatever the request, a response that a handler starts with a status
    other than 200 is exactly such a response, the last thing written, and
    preceded by nothing or by the head of a 200 whose body was not sent. *)
Theorem error_responses_are_envelopes
    (rt : Env) (c : command) (self : SimpleHTTPHandler) (st : state) :
  (forall status_code message,
      wfile (snd (_send_error rt status_code message st)) =
      (wfile st ++ json_response rt status_code
                     (ErrorEnvelope message status_code (isoformat_now rt (clock st))))%list)
  /\
  exists out,
    wfile (snd (handle_one_request rt c self st)) = (wfile st ++ out)%list /\
    forall status_code,
      In (send_response status_code) out ->
      status_code <> 200 ->
      exists prefix error timestamp,
        out = (prefix ++ json_response rt status_code
                           (ErrorEnvelope error status_code timestamp))%list /\
        (prefix = [] \/ prefix = json_head 200).
Proof.
  split.
  { intros status_code message. now rewrite send_error_run. }
  assert (Hnone : wfile st = (wfile st ++ [])%list) by now rewrite app_nil_r.
  destruct (urlparse_path rt (path self)) as [p|e|b] eqn:Hpath.
  2: { rewrite (handle_path_fault rt c self st e Hpath). exists []. now split. }
  2: { rewrite (handle_path_escape rt c self st b Hpath). exists []. now split. }
  destruct c; cbn [handle_one_request].
  - destruct (do_GET_outcome rt self st p Hpath) as (out & t & Hrun & Hout).
    rewrite Hrun. exists out. split; [reflexivity|].
    intros status_code Hin Hstatus.
    destruct Hout;
      try (apply In_json_response in Hin; subst status_code);
      try (cbn in Hin; destruct Hin as [H|[H|[H|[H|[]]]]]; try discriminate H;
           injection H as <-);
      try (now contradiction Hstatus).
    exists [], "Not Found", (isoformat_now rt (clock st)). split; [reflexivity | now left].
  - destruct (do_POST_outcome rt self st p Hpath) as (r & st' & Hrun & Hout).
    rewrite Hrun. destruct Hout as [status_code' error Hcode|response agent l _ _
                                   |error agent l _|b agent l _];
      cbn [snd wfile answered].
    + eexists. split; [reflexivity|]. intros status_code Hin _.
      apply In_json_response in Hin. subst status_code'.
      exists [], error, (isoformat_now rt (clock st)). split; [reflexivity | now left].
    + eexists. split; [reflexivity|]. intros status_code Hin Hstatus.
      apply In_json_response in Hin. now contradiction Hstatus.
    + eexists. split; [reflexivity|]. intros status_code Hin Hstatus.
      apply in_app_or in Hin. destruct Hin as [Hin|Hin].
      * apply In_json_head in Hin. now contradiction Hstatus.
      * apply In_json_response in Hin. subst status_code.
        exists (json_head 200), error, (isoformat_now rt (S (clock st))).
        split; [reflexivity | now right].
    + exists []. now split.
Qed.

(** C5 as stated fails for GET: the handler has no [try] statement, and a
    fault in it (here [urlparse] on a malformed absolute target) leaves the
    handler with the exception and no response written. *)
Lemma get_fault_is_not_answered :
  do_GET Scenario.plain (Scenario.get "http://[" None) initial =
  (Raise (mkExn ValueError "Invalid IPv6 URL"), initial) /\
  wfile (snd (handle_one_request Scenario.plain GET (Scenario.get "http://[" None) initial)) = [].
Proof. split; reflexivity. Qed.

(** C5, amended. On the POST /chat route, once the path is matched, any
    exception of class Exception raised inside the handler's [try] statement
    is converted into the 500 error envelope whose error text is
    "Internal server error: " followed by the exception's message, written
    after what the [try] statement had written by then: nothing, or the head
    of a 200 whose body could not be serialised.  No such exception leaves
    the handler; what is thrown outside Exception passes through it. *)
Theorem chat_faults_are_500
    (rt : Env) (self : SimpleHTTPHandler) (st : state) :
  urlparse_path rt (path self) = Ok "/chat" ->
  (forall e st1,
      do_POST_try rt self st = (Raise e, st1) ->
      (wfile st1 = wfile st \/ wfile st1 = (wfile st ++ json_head 200)%list) /\
      do_POST rt self st =
      (Ok tt, answered st1 (json_response rt 500
                (ErrorEnvelope ("Internal server error: " ++ str e) 500
                               (isoformat_now rt (clock st1)))))) /\
  (forall e st', do_POST rt self st <> (Raise e, st')) /\
  (forall b st1,
      do_POST_try rt self st = (Escape b, st1) ->
      do_POST rt self st = (Escape b, st1)).
Proof.
  intros Hpath. split; [|split].
  - intros e st1 Hrun. split; [|now apply do_POST_chat_raise].
    destruct (do_POST_try_outcome rt self st)
      as [(e' & Hrun') | [(e' & agent & l & _ & Hrun') | (r & st' & Hrun' & Hout)]];
      rewrite Hrun in Hrun'.
    + injection Hrun' as _ ->. now left.
    + injection Hrun' as _ ->. now right.
    + injection Hrun' as <- <-. inversion Hout.
  - intros e st' Hrun.
    destruct (do_POST_outcome rt self st "/chat" Hpath) as (r & st1 & Hrun' & Hout).
    rewrite Hrun in Hrun'. injection Hrun' as <- <-. inversion Hout.
  - intros b st1 Hrun. unfold do_POST, bind at 1, lift at 1. rewrite Hpath.
    cbn [String.eqb Ascii.eqb Bool.eqb]. unfold try_except. now rewrite Hrun.
Qed.

(** A [Content-Length] that is not a number raises inside the [try]. *)
Lemma chat_faults_are_500_witness :
  do_POST Scenario.plain
    {| path := "/chat"; headers_Content_Length := Some "abc";
       rfile := Scenario.body_hello; server_instance := None |} initial =
  (Ok tt, answered initial (json_response Scenario.plain 500
            (ErrorEnvelope
               "Internal server error: invalid literal for int() with base 10: 'abc'"
               500 "2024-01-01T12:00:00"))).
Proof.
  refine (proj2 (proj1 (chat_faults_are_500 Scenario.plain
                          {| path := "/chat"; headers_Content_Length := Some "abc";
                             rfile := Scenario.body_hello; server_instance := None |}
                          initial _)
                   (mkExn ValueError "invalid literal for int() with base 10: 'abc'")
                   initial _)).
  - reflexivity.
  - reflexivity.
Defined.

(** ** Port negotiation *)

Lemma probed_probed (st : state) (host : string) (l1 l2 : list Z) :
  probed (probed st host l1) host l2 = probed st host (l1 ++ l2).
Proof. unfold probed; cbn. now rewrite map_app, app_assoc. Qed.

Lemma is_port_in_use_free (rt : Env) (host : string) (port : Z) (st : state) :
  socket_bind rt host port = Ok tt ->
  _is_port_in_use rt host port st = (Ok false, probed st host [port]).
Proof.
  intros Hbind. unfold _is_port_in_use, try_except, bind, probe, lift, ret.
  now rewrite Hbind.
Qed.

Lemma is_port_in_use_refused (rt : Env) (host : string) (port : Z) (st : state) :
  bind_refused rt host port ->
  _is_port_in_use rt host port st = (Ok true, probed st host [port]).
Proof.
  intros (e & Hbind & Hcls).
  unfold _is_port_in_use, try_except, bind, probe, lift, ret, except.
  now rewrite Hbind, Hcls.
Qed.

Lemma is_port_in_use_fatal (rt : Env) (host : string) (port : Z) (st : state) (e : exn) :
  socket_bind rt host port = Raise e ->
  issubclass (cls e) socket_error = false ->
  _is_port_in_use rt host port st = (Raise e, probed st host [port]).
Proof.
  intros Hbind Hcls.
  unfold _is_port_in_use, try_except, bind, probe, lift, ret, except.
  now rewrite Hbind, Hcls.
Qed.

Lemma is_port_in_use_escape
    (rt : Env) (host : string) (port : Z) (st : state) (b : base_exception) :
  socket_bind rt host port = Escape b ->
  _is_port_in_use rt host port st = (Escape b, probed st host [port]).
Proof.
  intros Hbind.
  unfold _is_port_in_use, try_except, bind, probe, lift, ret, except.
  now rewrite Hbind.
Qed.

Lemma find_free_port_loop_first
    (rt : Env) (host : string) (before : list Z) (port : Z) (after : list Z) (st : state) :
  Forall (bind_refused rt host) before ->
  socket_bind rt host port = Ok tt ->
  _find_free_port_loop rt host (before ++ port :: after) st =
  (Ok port, probed st host (before ++ [port])).
Proof.
  intros Hbefore Hfree. revert st.
  induction Hbefore as [|q before Hq _ IH]; intros st; cbn [app _find_free_port_loop];
    unfold bind.
  - now rewrite is_port_in_use_free.
  - rewrite is_port_in_use_refused by exact Hq. cbn [negb].
    rewrite IH. now rewrite probed_probed.
Qed.

Lemma find_free_port_loop_exhausted
    (rt : Env) (host : string) (ports : list Z) (st : state) :
  Forall (bind_refused rt host) ports ->
  _find_free_port_loop rt host ports st =
  (Raise (mkExn RuntimeError "无法找到可用端口"), probed st host ports).
Proof.
  intros Hports. revert st.
  induction Hports as [|q ports Hq _ IH]; intros st; cbn [_find_free_port_loop].
  - unfold raise, probed. cbn. now rewrite app_nil_r; destruct st.
  - unfold bind. rewrite is_port_in_use_refused by exact Hq. cbn [negb].
    rewrite IH. now rewrite probed_probed.
Qed.

Lemma range_In (a b x : Z) : In x (Py.range a b) <-> a <= x < b.
Proof.
  unfold Py.range. rewrite in_map_iff. split.
  - intros (i & <- & Hi). apply in_seq in Hi. lia.
  - intros Hx. exists (Z.to_nat (x - a)). split; [lia|]. apply in_seq. lia.
Qed.

Lemma range_cons (a b : Z) : a < b -> Py.range a b = a :: Py.range (a + 1) b.
Proof.
  intros Hab. unfold Py.range.
  replace (Z.to_nat (b - a)) with (S (Z.to_nat (b - (a + 1)))) by lia.
  cbn [seq map]. f_equal; [lia|].
  rewrite <- seq_shift, map_map. apply map_ext. intros i. lia.
Qed.

Lemma range_nil (a b : Z) : b <= a -> Py.range a b = [].
Proof.
  intros Hba. unfold Py.range. now replace (Z.to_nat (b - a)) with 0%nat by lia.
Qed.

Lemma range_split (a m b : Z) :
  a <= m < b -> Py.range a b = (Py.range a m ++ m :: Py.range (m + 1) b)%list.
Proof.
  intros Hm. remember (Z.to_nat (m - a)) as k eqn:Hk.
  revert a Hm Hk. induction k as [|k IH]; intros a Hm Hk.
  - assert (a = m) as -> by lia.
    rewrite (range_nil m m) by lia. now rewrite (range_cons m b) by lia.
  - rewrite (range_cons a b), (range_cons a m) by lia.
    rewrite (IH (a + 1)) by lia. reflexivity.
Qed.

Lemma range_snoc (a m : Z) : a <= m -> Py.range a (m + 1) = (Py.range a m ++ [m])%list.
Proof.
  intros Hm. rewrite (range_split a m (m + 1)) by lia.
  now rewrite (range_nil (m + 1) (m + 1)) by lia.
Qed.

(** The first part of [run] when the preferred port is refused. *)
Lemma run_acquire_port_search
    (rt : Env) (host : option string) (port : option Z) (st : state) :
  bind_refused rt (host_or_default rt host) (port_or_default rt port) ->
  run_acquire_port rt host port st =
  (found <- _find_free_port rt (host_or_default rt host) (port_or_default rt port) ;;
   ret (host_or_default rt host, found))
    (probed st (host_or_default rt host) [port_or_default rt port]).
Proof.
  intros Hrefused. unfold run_acquire_port. unfold bind at 1.
  rewrite is_port_in_use_refused by exact Hrefused. reflexivity.
Qed.

(** C4. When the bind of the preferred port is refused, the ports
    preferred+1 .. preferred+99 are probed in increasing order and the first
    one whose bind succeeds is returned; when all 99 are refused the search
    fails with the RuntimeError "无法找到可用端口" (the PortExhaustedError of the
    specification).  The probe log records exactly the ports tried. *)
Theorem port_fallback
    (rt : Env) (host : option string) (port : option Z) (st : state) :
  let h := host_or_default rt host in
  let p := port_or_default rt port in
  bind_refused rt h p ->
  (forall k,
      1 <= k <= 99 ->
      (forall j, 1 <= j < k -> bind_refused rt h (p + j)) ->
      socket_bind rt h (p + k) = Ok tt ->
      run_acquire_port rt host port st =
      (Ok (h, p + k), probed st h (Py.range p (p + k + 1))))
  /\
  ((forall j, 1 <= j <= 99 -> bind_refused rt h (p + j)) ->
   run_acquire_port rt host port st =
   (Raise (mkExn RuntimeError "无法找到可用端口"), probed st h (Py.range p (p + 100)))).
Proof.
  intros h p Hpreferred. split.
  - intros k Hk Hbefore Hfree.
    rewrite run_acquire_port_search by exact Hpreferred. fold h p.
    unfold bind, _find_free_port.
    rewrite (range_split (p + 1) (p + k) (p + 100)) by lia.
    rewrite find_free_port_loop_first.
    + unfold ret. rewrite probed_probed. do 2 f_equal.
      rewrite (range_cons p (p + k + 1)) by lia.
      now rewrite (range_snoc (p + 1) (p + k)) by lia.
    + apply Forall_forall. intros q Hq. apply range_In in Hq.
      replace q with (p + (q - p)) by lia. apply Hbefore. lia.
    + exact Hfree.
  - intros Hall.
    rewrite run_acquire_port_search by exact Hpreferred. fold h p.
    unfold bind, _find_free_port.
    rewrite find_free_port_loop_exhausted.
    + rewrite probed_probed. do 2 f_equal.
      now rewrite (range_cons p (p + 100)) by lia.
    + apply Forall_forall. intros q Hq. apply range_In in Hq.
      replace q with (p + (q - p)) by lia. apply Hall. lia.
Qed.

(** A failure to create the listener after the negotiation is re-raised:
    [run] does not go back to probing. *)
Lemma run_listener_failure
    (rt : Env) (host : option string) (port : option Z) (st st1 : state)
    (h : string) (p : Z) (e : exn) :
  run_acquire_port rt host port st = (Ok (h, p), st1) ->
  HTTPServer_bind rt h p = Raise e ->
  run rt host port st = (Raise e, st1).
Proof.
  intros Hport Hbind. unfold run, bind at 1. rewrite Hport.
  unfold try_except, bind, lift, except. cbn [fst snd].
  now rewrite Hbind, issubclass_Exception.
Qed.

Lemma refusing_inside (first last port : Z) (e : exn) (host : string) :
  first <= port <= last -> Scenario.refusing first last e host port = Raise e.
Proof.
  intros Hport. unfold Scenario.refusing.
  now replace ((first <=? port) && (port <=? last)) with true
    by (symmetry; apply andb_true_iff; split; apply Z.leb_le; lia).
Qed.

(** Ports 8000-8002 taken: 8003 is chosen.  Ports 8000-8099 taken: the
    search is exhausted. *)
Lemma port_fallback_witness :
  run_acquire_port
    (Scenario.world (Scenario.refusing 8000 8002 Scenario.address_in_use))
    None None initial =
  (Ok ("127.0.0.1", 8003), probed initial "127.0.0.1" [8000; 8001; 8002; 8003])
  /\
  run_acquire_port
    (Scenario.world (Scenario.refusing 8000 8099 Scenario.address_in_use))
    None None initial =
  (Raise (mkExn RuntimeError "无法找到可用端口"),
   probed initial "127.0.0.1" (Py.range 8000 8100)).
Proof.
  split.
  - refine (proj1 (port_fallback
                     (Scenario.world (Scenario.refusing 8000 8002 Scenario.address_in_use))
                     None None initial _) 3 _ _ _).
    + exists Scenario.address_in_use. split; reflexivity.
    + lia.
    + intros j Hj. exists Scenario.address_in_use. split; [|reflexivity].
      apply refusing_inside. change (8000 <= 8000 + j <= 8002). lia.
    + reflexivity.
  - refine (proj2 (port_fallback
                     (Scenario.world (Scenario.refusing 8000 8099 Scenario.address_in_use))
                     None None initial _) _).
    + exists Scenario.address_in_use. split; reflexivity.
    + intros j Hj. exists Scenario.address_in_use. split; [|reflexivity].
      apply refusing_inside. change (8000 <= 8000 + j <= 8099). lia.
Defined.

(** C3 as stated fails: a bind refused for lack of permission is not
    propagated.  Asked for port 80 where ports below 1024 are privileged, the
    negotiation probes the 99 following ports and ends with the RuntimeError
    of an exhausted search. *)
Lemma permission_error_is_not_propagated :
  socket_bind (Scenario.world (Scenario.refusing 1 1023 Scenario.permission_denied))
    "127.0.0.1" 80 = Raise Scenario.permission_denied /\
  run_acquire_port
    (Scenario.world (Scenario.refusing 1 1023 Scenario.permission_denied))
    (Some "127.0.0.1") (Some 80) initial =
  (Raise (mkExn RuntimeError "无法找到可用端口"),
   probed initial "127.0.0.1" (Py.range 80 180)) /\
  mkExn RuntimeError "无法找到可用端口" <> Scenario.permission_denied /\
  length (probes (snd (run_acquire_port
                         (Scenario.world (Scenario.refusing 1 1023 Scenario.permission_denied))
                         (Some "127.0.0.1") (Some 80) initial))) = 100%nat.
Proof.
  split; [reflexivity|]. split; [vm_compute; reflexivity|].
  split; [discriminate | vm_compute; reflexivity].
Qed.

(** C3, amended. When the bind of the preferred port fails with a
    socket.error, whatever its cause (address in use, permission, invalid
    address), the failure is not propagated: the port counts as occupied and
    the search over the following ports starts.  Only a failure that is not a
    socket.error is propagated at once, with no further port probed. *)
Theorem socket_errors_count_as_occupied
    (rt : Env) (host : option string) (port : option Z) (st : state) (e : exn) :
  let h := host_or_default rt host in
  let p := port_or_default rt port in
  socket_bind rt h p = Raise e ->
  (issubclass (cls e) socket_error = true ->
   _is_port_in_use rt h p st = (Ok true, probed st h [p]) /\
   run_acquire_port rt host port st =
   (found <- _find_free_port rt h p ;; ret (h, found)) (probed st h [p]))
  /\
  (issubclass (cls e) socket_error = false ->
   run_acquire_port rt host port st = (Raise e, probed st h [p])).
Proof.
  intros h p Hbind. split; intros Hcls.
  - assert (bind_refused rt h p) as Hrefused by (exists e; now split).
    split; [now apply is_port_in_use_refused | now apply run_acquire_port_search].
  - unfold run_acquire_port. unfold bind at 1. fold h p.
    now rewrite (is_port_in_use_fatal rt h p st e).
Qed.

(** Port 80 refused for lack of permission: 81 is chosen.  A port number out
    of range, which is not a socket.error: the OverflowError is propagated. *)
Lemma socket_errors_count_as_occupied_witness :
  run_acquire_port
    (Scenario.world (Scenario.refusing 80 80 Scenario.permission_denied))
    (Some "127.0.0.1") (Some 80) initial =
  (Ok ("127.0.0.1", 81), probed initial "127.0.0.1" [80; 81])
  /\
  run_acquire_port
    (Scenario.world (Scenario.refusing 70000 70000
                       (mkExn OverflowError "bind(): port must be 0-65535.")))
    (Some "127.0.0.1") (Some 70000) initial =
  (Raise (mkExn OverflowError "bind(): port must be 0-65535."),
   probed initial "127.0.0.1" [70000]).
Proof.
  split.
  - refine (eq_trans
              (proj2 (proj1 (socket_errors_count_as_occupied
                               (Scenario.world
                                  (Scenario.refusing 80 80 Scenario.permission_denied))
                               (Some "127.0.0.1") (Some 80) initial
                               Scenario.permission_denied _) _)) _).
    + reflexivity.
    + reflexivity.
    + reflexivity.
  - refine (proj2 (socket_errors_count_as_occupied
                     (Scenario.world
                        (Scenario.refusing 70000 70000
                           (mkExn OverflowError "bind(): port must be 0-65535.")))
                     (Some "127.0.0.1") (Some 70000) initial
                     (mkExn OverflowError "bind(): port must be 0-65535.") _) _).
    + reflexivity.
    + reflexivity.
Defined.

(** ** Handlers: faults and answers *)

(** X1. On a connection that accepts every write, an exception of class
    Exception leaves a handler (GET or POST) exactly when parsing the request
    target raised it, and then nothing was written and nothing changed.  A GET
    whose target parses returns normally.  (A POST can also be left by what
    is thrown outside Exception: see X2 and X8.) *)
Theorem only_path_faults_escape
    (rt : Env) (c : command) (self : SimpleHTTPHandler) (st : state) :
  (forall e st',
      handle_one_request rt c self st = (Raise e, st') <->
      urlparse_path rt (path self) = Raise e /\ st' = st) /\
  (forall p,
      urlparse_path rt (path self) = Ok p ->
      c = GET ->
      exists st', handle_one_request rt c self st = (Ok tt, st')).
Proof.
  split.
  - intros e st'. split.
    + intros Hrun.
      destruct (urlparse_path rt (path self)) as [p|e'|b] eqn:Hpath.
      * destruct c; cbn [handle_one_request] in Hrun.
        -- destruct (do_GET_outcome rt self st p Hpath) as (out & t & Hrun' & _).
           rewrite Hrun in Hrun'. discriminate Hrun'.
        -- destruct (do_POST_outcome rt self st p Hpath) as (r & st1 & Hrun' & Hout).
           rewrite Hrun in Hrun'. injection Hrun' as <- <-. inversion Hout.
      * rewrite (handle_path_fault rt c self st e' Hpath) in Hrun.
        now injection Hrun as -> ->.
      * rewrite (handle_path_escape rt c self st b Hpath) in Hrun. discriminate Hrun.
    + intros (Hpath & ->). now apply handle_path_fault.
  - intros p Hpath ->. cbn [handle_one_request].
    destruct (do_GET_outcome rt self st p Hpath) as (out & t & Hrun & _). now eauto.
Qed.

(** The target [http://[] is refused by [urlparse]. *)
Lemma only_path_faults_escape_witness :
  handle_one_request Scenario.plain GET (Scenario.get "http://[" None) initial =
  (Raise (mkExn ValueError "Invalid IPv6 URL"), initial).
Proof.
  apply (proj1 (only_path_faults_escape Scenario.plain GET
                  (Scenario.get "http://[" None) initial)).
  split; reflexivity.
Defined.



(** X3. A GET whose target parses is answered by exactly one response: the
    service document, a health report or the documentation page with status
    200, or the 404 envelope.  It never touches the event loop, the
    scheduler, the probe log or the listener. *)
Theorem get_is_answered_once
    (rt : Env) (self : SimpleHTTPHandler) (st : state) (p : string) :
  urlparse_path rt (path self) = Ok p ->
  exists st' out,
    do_GET rt self st = (Ok tt, st') /\
    wfile st' = (wfile st ++ out)%list /\
    ((exists data, out = json_response rt 200 data) \/
     out = [send_response 200;
            send_header "Content-Type" "text/html; charset=utf-8";
            end_headers;
            wfile_write docs_html] \/
     out = json_response rt 404
             (ErrorEnvelope "Not Found" 404 (isoformat_now rt (clock st)))) /\
    event_loop st' = event_loop st /\
    scheduler st' = scheduler st /\
    probes st' = probes st /\
    httpd st' = httpd st.
Proof.
  intros Hpath.
  destruct (do_GET_outcome rt self st p Hpath) as (out & t & Hrun & Hout).
  eexists _, out. split; [exact Hrun|]. split; [reflexivity|].
  split; [|now repeat split].
  destruct Hout; [left; now eauto | left; now eauto | right; now left | right; now right].
Qed.

(** GET [/docs]. *)
Lemma get_is_answered_once_witness :
  exists st' out,
    do_GET Scenario.plain (Scenario.get "/docs" None) initial = (Ok tt, st') /\
    wfile st' = (wfile initial ++ out)%list /\
    ((exists data, out = json_response Scenario.plain 200 data) \/
     out = [send_response 200;
            send_header "Content-Type" "text/html; charset=utf-8";
            end_headers;
            wfile_write docs_html] \/
     out = json_response Scenario.plain 404
             (ErrorEnvelope "Not Found" 404
                (isoformat_now Scenario.plain (clock initial)))) /\
    event_loop st' = event_loop initial /\
    scheduler st' = scheduler initial /\
    probes st' = probes initial /\
    httpd st' = httpd initial.
Proof.
  apply (get_is_answered_once Scenario.plain (Scenario.get "/docs" None) initial "/docs").
  reflexivity.
Defined.

(** ** Bodies that are not a chat request *)

(** X4. A POST /chat whose body bytes are not UTF-8 never reaches the JSON
    parser: the decoding error is not a JSONDecodeError, so the answer is the
    generic 500 carrying that error's message, not the 400 of invalid JSON. *)
Theorem undecodable_body_is_500
    (rt : Env) (self : SimpleHTTPHandler) (st : state)
    (s : string) (n : Z) (post_data : string) (e : exn) :
  urlparse_path rt (path self) = Ok "/chat" ->
  headers_Content_Length self = Some s ->
  int_str rt s = Ok n ->
  Py.read (rfile self) n = Ok post_data ->
  decode_utf8 rt post_data = Raise e ->
  issubclass (cls e) JSONDecodeError = false ->
  do_POST rt self st =
  (Ok tt, answered st (json_response rt 500
            (ErrorEnvelope ("Internal server error: " ++ str e) 500
                           (isoformat_now rt (clock st))))).
Proof.
  intros Hpath Hlen Hint Hread Hdec Hcls.
  apply do_POST_chat_raise; [exact Hpath|].
  unfold do_POST_try, int. rewrite Hlen.
  unfold bind, lift, try_except, ret, except.
  rewrite Hint. cbv beta iota. rewrite Hread. cbv beta iota.
  now rewrite Hdec, Hcls.
Qed.

(** One byte of Latin-1. *)
Lemma undecodable_body_is_500_witness :
  do_POST Cases.plain (Scenario.post "/chat" Cases.body_latin1 None) initial =
  (Ok tt, answered initial (json_response Cases.plain 500
            (ErrorEnvelope "Internal server error: 'utf-8' codec can't decode bytes" 500
                           "2024-01-01T12:00:00"))).
Proof.
  apply (undecodable_body_is_500 Cases.plain
           (Scenario.post "/chat" Cases.body_latin1 None) initial
           "1" 1 Cases.body_latin1
           (mkExn UnicodeDecodeError "'utf-8' codec can't decode bytes"));
    reflexivity.
Defined.

(** X5. A POST /chat whose body is a JSON null, boolean or number is answered
    500: the test for the message field itself raises a TypeError, whose text
    is carried by the envelope. *)
Theorem scalar_body_is_500
    (rt : Env) (self : SimpleHTTPHandler) (st : state) (text : string)
    (request_data : pyvalue) :
  urlparse_path rt (path self) = Ok "/chat" ->
  body_text rt self text ->
  json_loads rt text = Ok request_data ->
  (request_data = PNone \/ (exists b, request_data = PBool b) \/
   (exists n, request_data = PInt n) \/ (exists r, request_data = PFloat r)) ->
  do_POST rt self st =
  (Ok tt, answered st (json_response rt 500
            (ErrorEnvelope
               ("Internal server error: argument of type '"
                  ++ Py.type_name request_data ++ "' is not iterable")
               500 (isoformat_now rt (clock st))))).
Proof.
  intros Hpath Hbody Hjson Hscalar.
  assert (Py.contains "message" request_data =
          Raise (mkExn TypeError
                   ("argument of type '" ++ Py.type_name request_data
                      ++ "' is not iterable"))) as Hin.
  { destruct Hscalar as [-> | [(b & ->) | [(n & ->) | (r & ->)]]]; reflexivity. }
  apply (do_POST_chat_raise rt self st st
           (mkExn TypeError
              ("argument of type '" ++ Py.type_name request_data
                 ++ "' is not iterable")));
    [exact Hpath|].
  open_body Hbody. rewrite Hjson. cbv beta iota. now rewrite Hin.
Qed.

(** The body [5]. *)
Lemma scalar_body_is_500_witness :
  do_POST Cases.plain (Scenario.post "/chat" Cases.body_number None) initial =
  (Ok tt, answered initial (json_response Cases.plain 500
            (ErrorEnvelope "Internal server error: argument of type 'int' is not iterable"
               500 "2024-01-01T12:00:00"))).
Proof.
  apply (scalar_body_is_500 Cases.plain
           (Scenario.post "/chat" Cases.body_number None) initial "5" (PInt 5)).
  - reflexivity.
  - exists "1", 1, "5". repeat split; reflexivity.
  - reflexivity.
  - right. right. left. now exists 5.
Defined.

(** X6. A body that passes the test for the message field without being an
    object (an array with the element "message", a string containing that
    word) is not handed to the agent: building the agent's request raises,
    the bridge reports that error in a result with status "error", and the
    answer has HTTP status 200.  An event loop may have been created, but no
    coroutine was driven. *)
Theorem non_object_body_skips_agent
    (rt : Env) (self : SimpleHTTPHandler) (st : state) (text : string)
    (request_data : pyvalue) (srv : SimpleHTTPServer) (chatbot : ChatBotAgent) (e : exn) :
  urlparse_path rt (path self) = Ok "/chat" ->
  body_text rt self text ->
  json_loads rt text = Ok request_data ->
  Py.contains "message" request_data = Ok true ->
  Py.getitem request_data "message" = Raise e ->
  server_instance self = Some srv ->
  get_agent (agent_manager srv) (default_chatbot_id srv) = Some chatbot ->
  do_POST rt self st =
  (Ok tt,
   mkState
     (wfile st ++ json_response rt 200
        (error_result (PStr (str e)) (isoformat_now rt (clock st))))
     (S (clock st)) true
     (scheduler st ++ (if event_loop st then [] else [new_event_loop]))
     (probes st) (httpd st)).
Proof.
  intros Hpath Hbody Hjson Hin Hitem Hsrv Hagent.
  apply do_POST_chat_ok; [exact Hpath|].
  open_body Hbody. rewrite Hjson. cbv beta iota.
  rewrite Hin, Hsrv. cbv beta iota. unfold negb.
  unfold _process_chat_sync, try_except. rewrite Hagent.
  unfold get_event_loop, datetime_now_isoformat,
    bind, lift, ret, tick, sched, set_event_loop, except.
  rewrite Hitem.
  destruct (event_loop st) eqn:Hloop;
    cbn -[json_response _send_json_response issubclass];
    change (issubclass RuntimeError RuntimeError) with true;
    cbn -[json_response _send_json_response issubclass];
    rewrite issubclass_Exception; cbn -[json_response _send_json_response];
    rewrite send_json_response_run by (split; reflexivity); cbn -[json_response].
  - now rewrite Hloop, app_nil_r.
  - reflexivity.
Qed.

(** The body [["message"]] against an agent that would answer. *)
Lemma non_object_body_skips_agent_witness :
  do_POST Cases.plain
    (Scenario.post "/chat" Cases.body_array (Some (Cases.serving Scenario.answering_agent)))
    initial =
  (Ok tt,
   mkState
     (json_response Cases.plain 200
        (error_result (PStr "list indices must be integers or slices, not str")
                      "2024-01-01T12:00:00"))
     1 true [new_event_loop] [] None).
Proof.
  apply (non_object_body_skips_agent Cases.plain
           (Scenario.post "/chat" Cases.body_array
              (Some (Cases.serving Scenario.answering_agent)))
           initial Cases.body_array (PList [PStr "message"])
           (Cases.serving Scenario.answering_agent) Scenario.answering_agent
           (mkExn TypeError "list indices must be integers or slices, not str")).
  - reflexivity.
  - exists "11", 11, Cases.body_array. repeat split; reflexivity.
  - reflexivity.
  - reflexivity.
  - reflexivity.
  - reflexivity.
  - reflexivity.
Defined.

(** X7. A well-formed chat request that arrives while the handler class has
    no server instance is answered 500 with the envelope "Server not
    initialized"; neither the agent directory nor the scheduler is touched. *)
Theorem server_not_initialized_is_500
    (rt : Env) (self : SimpleHTTPHandler) (st : state) (text : string)
    (request_data : pyvalue) :
  urlparse_path rt (path self) = Ok "/chat" ->
  body_text rt self text ->
  json_loads rt text = Ok request_data ->
  Py.contains "message" request_data = Ok true ->
  server_instance self = None ->
  do_POST rt self st =
  (Ok tt, answered st (json_response rt 500
            (ErrorEnvelope "Server not initialized" 500 (isoformat_now rt (clock st))))).
Proof.
  intros Hpath Hbody Hjson Hin Hsrv.
  apply do_POST_chat_ok; [exact Hpath|].
  open_body Hbody. rewrite Hjson. cbv beta iota.
  rewrite Hin, Hsrv. cbv beta iota. unfold negb.
  apply send_error_run.
Qed.

(** The happy-path body before any server was constructed. *)
Lemma server_not_initialized_is_500_witness :
  do_POST Scenario.plain (Scenario.post "/chat" Scenario.body_hello None) initial =
  (Ok tt, answered initial (json_response Scenario.plain 500
            (ErrorEnvelope "Server not initialized" 500 "2024-01-01T12:00:00"))).
Proof.
  apply (server_not_initialized_is_500 Scenario.plain
           (Scenario.post "/chat" Scenario.body_hello None) initial Scenario.body_hello
           (PDict [("message", PStr "hello"); ("session_id", PStr "s1")])).
  - reflexivity.
  - exists "37", 37, Scenario.body_hello. repeat split; reflexivity.
  - reflexivity.
  - reflexivity.
  - reflexivity.
Defined.

(** ** The bridge and the agent *)

(** Enters [_process_chat_sync] on an object with a message, up to the call
    of the agent. *)
Ltac enter_bridge Hagent Hmsg :=
  unfold _process_chat_sync, try_except; rewrite Hagent;
  unfold Py.getitem, Py.get, get_event_loop, datetime_now_isoformat,
    bind, lift, ret, tick, sched, set_event_loop, except;
  rewrite Hmsg;
  unfold driven, agent_request, session_of, context_of in *.

(** Closes the two cases of the thread's event loop. *)
Ltac leave_bridge :=
  match goal with
  | |- context [event_loop ?st] =>
      let Hloop := fresh "Hloop" in
      destruct (event_loop st) eqn:Hloop;
      cbn -[issubclass];
      change (issubclass RuntimeError RuntimeError) with true;
      cbn -[issubclass];
      rewrite ?issubclass_Exception; cbn;
      rewrite ?Hloop, <- ?app_assoc; reflexivity
  end.

(** X8. The bridge never writes to the connection, and no exception of
    class Exception leaves it.  Whatever the request data and the agent do,
    either it returns a dictionary that is (status "error", message,
    timestamp) or (status "success", response, session_id, timestamp,
    conversation_length), stamped with the clock reading at which it was
    called; or it is left by what the agent's coroutine threw outside
    Exception (CancelledError, SystemExit, KeyboardInterrupt), which its
    [except Exception] does not catch. *)
Theorem bridge_result_shape
    (rt : Env) (srv : SimpleHTTPServer) (request_data : pyvalue) (st : state) :
  exists r st',
    _process_chat_sync rt srv request_data st = (r, st') /\
    wfile st' = wfile st /\
    match r with
    | Ok response =>
        (exists message,
            response = error_result message (isoformat_now rt (clock st))) \/
        (exists answer session_id conversation_length,
            response = success_result answer session_id (isoformat_now rt (clock st))
                         conversation_length)
    | Raise _ => False
    | Escape b =>
        exists chatbot request,
          get_agent (agent_manager srv) (default_chatbot_id srv) = Some chatbot /\
          process chatbot request = Escape b
    end.
Proof.
  destruct (bridge_run rt srv request_data st)
    as (r & agent & l & Hrun & _ & _ & Hshape).
  eexists _, _. split; [exact Hrun|]. split; [reflexivity | exact Hshape].
Qed.

(** X9. When the agent's coroutine raises an exception of class Exception,
    the bridge returns the result (status "error", message the exception's
    text, timestamp): the exception does not reach the handler.  When the
    coroutine throws outside Exception, the bridge is left by that throwable
    and the clock is not read.  In both cases the agent was driven once. *)
Theorem agent_exception_is_reported
    (rt : Env) (srv : SimpleHTTPServer) (chatbot : ChatBotAgent)
    (d : list (string * pyvalue)) (message : pyvalue) (st : state) :
  get_agent (agent_manager srv) (default_chatbot_id srv) = Some chatbot ->
  Py.lookup "message" d = Some message ->
  (forall e,
      process chatbot (agent_request message (session_of d) (context_of d)) = Raise e ->
      _process_chat_sync rt srv (PDict d) st =
      (Ok (error_result (PStr (str e)) (isoformat_now rt (clock st))),
       driven st (agent_request message (session_of d) (context_of d)))) /\
  (forall b,
      process chatbot (agent_request message (session_of d) (context_of d)) = Escape b ->
      _process_chat_sync rt srv (PDict d) st =
      (Escape b,
       mkState (wfile st) (clock st) true
               (scheduler st ++ (if event_loop st then [] else [new_event_loop])
                  ++ [run_until_complete
                        (agent_request message (session_of d) (context_of d))])
               (probes st) (httpd st))).
Proof.
  intros Hagent Hmsg. split.
  - intros e Hproc. enter_bridge Hagent Hmsg. rewrite Hproc. leave_bridge.
  - intros b Hproc. enter_bridge Hagent Hmsg. rewrite Hproc. leave_bridge.
Qed.

(** An agent whose coroutine raises a RuntimeError, and one whose coroutine
    is cancelled. *)
Lemma agent_exception_is_reported_witness :
  _process_chat_sync Scenario.plain (Cases.serving Cases.raising_agent)
    (PDict [("message", PStr "hi")]) initial =
  (Ok (error_result (PStr "model overloaded") "2024-01-01T12:00:00"),
   driven initial (agent_request (PStr "hi") (PStr "default") (PDict [])))
  /\
  _process_chat_sync Scenario.plain (Cases.serving Cases.cancelled_agent)
    (PDict [("message", PStr "hi")]) initial =
  (Escape (CancelledError ""),
   mkState [] 0 true
     [new_event_loop;
      run_until_complete (agent_request (PStr "hi") (PStr "default") (PDict []))]
     [] None).
Proof.
  split.
  - refine (proj1 (agent_exception_is_reported Scenario.plain
                     (Cases.serving Cases.raising_agent) Cases.raising_agent
                     [("message", PStr "hi")] (PStr "hi") initial _ _)
              (mkExn RuntimeError "model overloaded") _);
      reflexivity.
  - refine (proj2 (agent_exception_is_reported Scenario.plain
                     (Cases.serving Cases.cancelled_agent) Cases.cancelled_agent
                     [("message", PStr "hi")] (PStr "hi") initial _ _)
              (CancelledError "") _);
      reflexivity.
Defined.

(** X10. When the agent returns a result whose status is not "success", the
    bridge returns the result (status "error", message, timestamp) with the
    agent's own message, or "ChatBot处理失败" when the agent gave none. *)
Theorem agent_failure_is_reported
    (rt : Env) (srv : SimpleHTTPServer) (chatbot : ChatBotAgent)
    (d r : list (string * pyvalue)) (message status : pyvalue) (st : state) :
  get_agent (agent_manager srv) (default_chatbot_id srv) = Some chatbot ->
  Py.lookup "message" d = Some message ->
  process chatbot (agent_request message (session_of d) (context_of d)) = Ok (PDict r) ->
  Py.lookup "status" r = Some status ->
  Py.eq_str status "success" = false ->
  _process_chat_sync rt srv (PDict d) st =
  (Ok (error_result
         (match Py.lookup "message" r with
          | Some text => text
          | None => PStr "ChatBot处理失败"
          end)
         (isoformat_now rt (clock st))),
   driven st (agent_request message (session_of d) (context_of d))).
Proof.
  intros Hagent Hmsg Hproc Hstatus Hfail.
  enter_bridge Hagent Hmsg. rewrite Hproc, Hstatus, Hfail. leave_bridge.
Qed.

(** An agent that refuses with a message, and one that fails without. *)
Lemma agent_failure_is_reported_witness :
  _process_chat_sync Scenario.plain (Cases.serving Cases.refusing_agent)
    (PDict [("message", PStr "hi")]) initial =
  (Ok (error_result (PStr "rate limited") "2024-01-01T12:00:00"),
   driven initial (agent_request (PStr "hi") (PStr "default") (PDict [])))
  /\
  _process_chat_sync Scenario.plain (Cases.serving Cases.mute_agent)
    (PDict [("message", PStr "hi")]) initial =
  (Ok (error_result (PStr "ChatBot处理失败") "2024-01-01T12:00:00"),
   driven initial (agent_request (PStr "hi") (PStr "default") (PDict []))).
Proof.
  split.
  - apply (agent_failure_is_reported Scenario.plain (Cases.serving Cases.refusing_agent)
             Cases.refusing_agent [("message", PStr "hi")]
             [("status", PStr "error"); ("message", PStr "rate limited")]
             (PStr "hi") (PStr "error") initial);
      reflexivity.
  - apply (agent_failure_is_reported Scenario.plain (Cases.serving Cases.mute_agent)
             Cases.mute_agent [("message", PStr "hi")]
             [("status", PStr "failed")]
             (PStr "hi") (PStr "failed") initial);
      reflexivity.
Defined.

(** X11. A result of the agent that lacks a key the bridge subscripts is
    reported as an error whose message is the quoted key: 'status' when the
    result has no status, 'response' when a result with status "success" has
    no response.  The agent had been driven all the same. *)
Theorem agent_result_missing_key
    (rt : Env) (srv : SimpleHTTPServer) (chatbot : ChatBotAgent)
    (d r : list (string * pyvalue)) (message : pyvalue) (st : state) :
  get_agent (agent_manager srv) (default_chatbot_id srv) = Some chatbot ->
  Py.lookup "message" d = Some message ->
  process chatbot (agent_request message (session_of d) (context_of d)) = Ok (PDict r) ->
  (Py.lookup "status" r = None ->
   _process_chat_sync rt srv (PDict d) st =
   (Ok (error_result (PStr "'status'") (isoformat_now rt (clock st))),
    driven st (agent_request message (session_of d) (context_of d))))
  /\
  (Py.lookup "status" r = Some (PStr "success") ->
   Py.lookup "response" r = None ->
   _process_chat_sync rt srv (PDict d) st =
   (Ok (error_result (PStr "'response'") (isoformat_now rt (clock st))),
    driven st (agent_request message (session_of d) (context_of d)))).
Proof.
  intros Hagent Hmsg Hproc. split.
  - intros Hstatus. enter_bridge Hagent Hmsg. rewrite Hproc, Hstatus. leave_bridge.
  - intros Hstatus Hresp. enter_bridge Hagent Hmsg.
    rewrite Hproc, Hstatus. cbn [Py.eq_str String.eqb Ascii.eqb Bool.eqb].
    rewrite Hresp. leave_bridge.
Qed.

(** A result without a status, and a success without a response. *)
Lemma agent_result_missing_key_witness :
  _process_chat_sync Scenario.plain (Cases.serving Cases.blank_agent)
    (PDict [("message", PStr "hi")]) initial =
  (Ok (error_result (PStr "'status'") "2024-01-01T12:00:00"),
   driven initial (agent_request (PStr "hi") (PStr "default") (PDict [])))
  /\
  _process_chat_sync Scenario.plain (Cases.serving Cases.incomplete_agent)
    (PDict [("message", PStr "hi")]) initial =
  (Ok (error_result (PStr "'response'") "2024-01-01T12:00:00"),
   driven initial (agent_request (PStr "hi") (PStr "default") (PDict []))).
Proof.
  split.
  - refine (proj1 (agent_result_missing_key Scenario.plain
                     (Cases.serving Cases.blank_agent) Cases.blank_agent
                     [("message", PStr "hi")] []
                     (PStr "hi") initial _ _ _) _);
      reflexivity.
  - refine (proj2 (agent_result_missing_key Scenario.plain
                     (Cases.serving Cases.incomplete_agent) Cases.incomplete_agent
                     [("message", PStr "hi")] [("status", PStr "success")]
                     (PStr "hi") initial _ _ _) _ _);
      reflexivity.
Defined.

(** X12. The agent is given the request's message unchanged, the request's
    session_id and context when present, and "default" and the empty
    dictionary when absent; on success the session_id sent back is the one
    the agent was given, and the conversation length is the agent's, or 0. *)
Theorem agent_request_defaults
    (rt : Env) (srv : SimpleHTTPServer) (chatbot : ChatBotAgent)
    (d r : list (string * pyvalue)) (message answer : pyvalue) (st : state) :
  get_agent (agent_manager srv) (default_chatbot_id srv) = Some chatbot ->
  Py.lookup "message" d = Some message ->
  process chatbot (agent_request message (session_of d) (context_of d)) = Ok (PDict r) ->
  Py.lookup "status" r = Some (PStr "success") ->
  Py.lookup "response" r = Some answer ->
  _process_chat_sync rt srv (PDict d) st =
  (Ok (success_result answer (session_of d) (isoformat_now rt (clock st))
         (match Py.lookup "conversation_length" r with
          | Some n => n
          | None => PInt 0
          end)),
   driven st (agent_request message (session_of d) (context_of d))).
Proof.
  intros Hagent Hmsg Hproc Hstatus Hresp.
  enter_bridge Hagent Hmsg.
  rewrite Hproc, Hstatus. cbn [Py.eq_str String.eqb Ascii.eqb Bool.eqb].
  rewrite Hresp. leave_bridge.
Qed.

(** A request with nothing but a message, echoed by the agent. *)
Lemma agent_request_defaults_witness :
  _process_chat_sync Scenario.plain (Cases.serving Cases.echo_agent)
    (PDict [("message", PStr "hi")]) initial =
  (Ok (success_result (PStr "hi") (PStr "default") "2024-01-01T12:00:00" (PInt 2)),
   driven initial (agent_request (PStr "hi") (PStr "default") (PDict []))).
Proof.
  apply (agent_request_defaults Scenario.plain (Cases.serving Cases.echo_agent)
           Cases.echo_agent [("message", PStr "hi")]
           [("status", PStr "success"); ("response", PStr "hi");
            ("conversation_length", PInt 2)]
           (PStr "hi") (PStr "hi") initial);
    reflexivity.
Defined.

(** ** Results that cannot be written out *)

(** X23. When the result of the bridge cannot be written out, because
    [json.dumps] raises on it or because its text cannot be encoded in UTF-8
    (an agent's answer that is an object, a session_id with a lone
    surrogate), the status line and the headers of the 200 are on the wire
    already: the handler follows them with the 500 envelope carrying the
    text of that exception, and reads the clock a second time for it.  The
    agent had been driven all the same. *)
Theorem unserialisable_result_is_500
    (rt : Env) (self : SimpleHTTPHandler) (st st1 : state) (text : string)
    (request_data response : pyvalue) (srv : SimpleHTTPServer) (e : exn) :
  urlparse_path rt (path self) = Ok "/chat" ->
  body_text rt self text ->
  json_loads rt text = Ok request_data ->
  Py.contains "message" request_data = Ok true ->
  server_instance self = Some srv ->
  _process_chat_sync rt srv request_data st = (Ok response, st1) ->
  dumps rt response = Raise e \/
  (exists response_data,
      dumps rt response = Ok response_data /\
      encode rt response response_data = Raise e) ->
  do_POST rt self st =
  (Ok tt,
   mkState
     (wfile st ++ json_head 200
        ++ json_response rt 500
             (ErrorEnvelope ("Internal server error: " ++ str e) 500
                            (isoformat_now rt (clock st1))))
     (S (clock st1)) (event_loop st1) (scheduler st1) (probes st1) (httpd st1)) /\
  clock st1 = S (clock st).
Proof.
  intros Hpath Hbody Hjson Hin Hsrv Hbridge Hraise.
  destruct (bridge_effects rt srv request_data st)
    as (r & st' & l & Hrun & Hw & _ & _ & _ & _ & _ & Hr).
  rewrite Hbridge in Hrun. injection Hrun as <- <-. destruct Hr as (Hclock & _).
  split; [|exact Hclock].
  rewrite (do_POST_chat_raise rt self st
             (mkState (wfile st1 ++ json_head 200) (clock st1) (event_loop st1)
                      (scheduler st1) (probes st1) (httpd st1)) e Hpath).
  - unfold answered. cbn [wfile clock event_loop scheduler probes httpd].
    now rewrite Hw, <- app_assoc.
  - open_body Hbody. rewrite Hjson. cbv beta iota.
    rewrite Hin, Hsrv. cbv beta iota. unfold negb.
    rewrite Hbridge. now apply send_json_response_raise.
Qed.

(** A session_id that is a lone surrogate, against an agent that answers;
    and an agent whose answer is an object. *)
Lemma unserialisable_result_is_500_witness :
  (do_POST Cases.plain
     (Scenario.post "/chat" Cases.body_surrogate
        (Some (Cases.serving Scenario.answering_agent)))
     initial =
   (Ok tt,
    mkState
      (json_head 200
         ++ json_response Cases.plain 500
              (ErrorEnvelope
                 ("Internal server error: 'utf-8' codec can't encode character "
                    ++ "'\ud800' in position 82: surrogates not allowed")
                 500 "2024-01-01T12:00:01"))
      2 true
      [new_event_loop;
       run_until_complete
         (agent_request (PStr "hello") (PSurrogates Scenario.lone_surrogate) (PDict []))]
      [] None) /\
   1%nat = 1%nat)
  /\
  (do_POST Cases.plain
     (Scenario.post "/chat" Scenario.body_hello (Some (Cases.serving Cases.opaque_agent)))
     initial =
   (Ok tt,
    mkState
      (json_head 200
         ++ json_response Cases.plain 500
              (ErrorEnvelope
                 "Internal server error: Object of type Reply is not JSON serializable"
                 500 "2024-01-01T12:00:01"))
      2 true
      [new_event_loop;
       run_until_complete (agent_request (PStr "hello") (PStr "s1") (PDict []))]
      [] None) /\
   1%nat = 1%nat).
Proof.
  split.
  - apply (unserialisable_result_is_500 Cases.plain
             (Scenario.post "/chat" Cases.body_surrogate
                (Some (Cases.serving Scenario.answering_agent)))
             initial
             (mkState [] 1 true
                [new_event_loop;
                 run_until_complete
                   (agent_request (PStr "hello") (PSurrogates Scenario.lone_surrogate)
                      (PDict []))]
                [] None)
             Cases.body_surrogate
             (PDict [("message", PStr "hello");
                     ("session_id", PSurrogates Scenario.lone_surrogate)])
             (success_result (PStr "hello, how can I help?")
                (PSurrogates Scenario.lone_surrogate) "2024-01-01T12:00:00" (PInt 1))
             (Cases.serving Scenario.answering_agent)
             (mkExn UnicodeEncodeError
                ("'utf-8' codec can't encode character "
                   ++ "'\ud800' in position 82: surrogates not allowed"))).
    + reflexivity.
    + exists "41", 41, Cases.body_surrogate. repeat split; reflexivity.
    + reflexivity.
    + reflexivity.
    + reflexivity.
    + reflexivity.
    + right. eexists. split; reflexivity.
  - apply (unserialisable_result_is_500 Cases.plain
             (Scenario.post "/chat" Scenario.body_hello
                (Some (Cases.serving Cases.opaque_agent)))
             initial
             (mkState [] 1 true
                [new_event_loop;
                 run_until_complete (agent_request (PStr "hello") (PStr "s1") (PDict []))]
                [] None)
             Scenario.body_hello
             (PDict [("message", PStr "hello"); ("session_id", PStr "s1")])
             (success_result (PObject "Reply") (PStr "s1") "2024-01-01T12:00:00" (PInt 1))
             (Cases.serving Cases.opaque_agent)
             (mkExn TypeError "Object of type Reply is not JSON serializable")).
    + reflexivity.
    + exists "37", 37, Scenario.body_hello. repeat split; reflexivity.
    + reflexivity.
    + reflexivity.
    + reflexivity.
    + reflexivity.
    + left. reflexivity.
Defined.

(** ** The scheduler over the life of the listener thread *)

Lemma schedule_counts (had_loop agent : bool) (l : list loop_event) :
  bridge_schedule had_loop agent l ->
  length (filter is_new_loop l) = (if agent && negb had_loop then 1 else 0)%nat /\
  (length (filter is_run l) <= 1)%nat.
Proof.
  intros (runs & -> & Hruns). rewrite !filter_app, !length_app.
  destruct Hruns as [-> | (_ & message & session_id & context & ->)];
    destruct (agent && negb had_loop); cbn; lia.
Qed.

(** What any request adds to the scheduler log. *)
Lemma handle_schedule (rt : Env) (c : command) (self : SimpleHTTPHandler) (st : state) :
  exists agent l,
    scheduler (snd (handle_one_request rt c self st)) = (scheduler st ++ l)%list /\
    event_loop (snd (handle_one_request rt c self st)) = event_loop st || agent /\
    bridge_schedule (event_loop st) agent l /\
    (c = GET -> l = []).
Proof.
  assert (Hnone : bridge_schedule (event_loop st) false []) by apply no_schedule.
  destruct (urlparse_path rt (path self)) as [p|e|b] eqn:Hpath.
  2: { rewrite (handle_path_fault rt c self st e Hpath). exists false, []. cbn.
       now rewrite app_nil_r, orb_false_r. }
  2: { rewrite (handle_path_escape rt c self st b Hpath). exists false, []. cbn.
       now rewrite app_nil_r, orb_false_r. }
  destruct c; cbn [handle_one_request].
  - destruct (do_GET_outcome rt self st p Hpath) as (out & t & Hrun & _).
    rewrite Hrun. exists false, []. cbn. now rewrite app_nil_r, orb_false_r.
  - destruct (do_POST_outcome rt self st p Hpath) as (r & st' & Hrun & Hout).
    rewrite Hrun. cbn [snd].
    destruct Hout as [status_code error _ | response agent l Hsched _
                     | error agent l Hsched | b agent l Hsched].
    + exists false, []. cbn. rewrite app_nil_r, orb_false_r.
      split; [reflexivity|]. split; [reflexivity|]. split; [exact Hnone | discriminate].
    + exists agent, l. cbn. split; [reflexivity|]. split; [reflexivity|].
      split; [exact Hsched | discriminate].
    + exists agent, l. cbn. split; [reflexivity|]. split; [reflexivity|].
      split; [exact Hsched | discriminate].
    + exists agent, l. cbn. split; [reflexivity|]. split; [reflexivity|].
      split; [exact Hsched | discriminate].
Qed.

(** X13. One request drives the agent at most once, and a GET never does.  It
    creates at most one event loop, and none when the thread already has one;
    a thread that has a loop keeps it. *)
Theorem agent_driven_at_most_once
    (rt : Env) (c : command) (self : SimpleHTTPHandler) (st : state) :
  (agent_calls (snd (handle_one_request rt c self st)) <= agent_calls st + 1)%nat /\
  (c = GET -> agent_calls (snd (handle_one_request rt c self st)) = agent_calls st) /\
  (loops_created (snd (handle_one_request rt c self st)) <= loops_created st + 1)%nat /\
  (event_loop st = true ->
   event_loop (snd (handle_one_request rt c self st)) = true /\
   loops_created (snd (handle_one_request rt c self st)) = loops_created st).
Proof.
  destruct (handle_schedule rt c self st) as (agent & l & Hs & He & Hsched & Hget).
  destruct (schedule_counts _ _ _ Hsched) as (Hloops & Hruns).
  unfold agent_calls, loops_created. rewrite Hs, He, !filter_app, !length_app, Hloops.
  split; [lia|]. split.
  - intros Hc. rewrite (Hget Hc). cbn. lia.
  - split.
    + destruct (agent && negb (event_loop st)); lia.
    + intros Hloop. rewrite Hloop. cbn. rewrite andb_false_r. split; [reflexivity | lia].
Qed.

(** A chat request in a thread that already has its loop. *)
Lemma agent_driven_at_most_once_witness :
  event_loop
    (snd (handle_one_request Scenario.plain POST
            (Scenario.post "/chat" Scenario.body_hello
               (Some (Cases.serving Scenario.answering_agent)))
            (mkState [] 0 true [new_event_loop] [] None))) = true /\
  loops_created
    (snd (handle_one_request Scenario.plain POST
            (Scenario.post "/chat" Scenario.body_hello
               (Some (Cases.serving Scenario.answering_agent)))
            (mkState [] 0 true [new_event_loop] [] None))) = 1%nat.
Proof.
  refine (proj2 (proj2 (proj2
            (agent_driven_at_most_once Scenario.plain POST
               (Scenario.post "/chat" Scenario.body_hello
                  (Some (Cases.serving Scenario.answering_agent)))
               (mkState [] 0 true [new_event_loop] [] None)))) _).
  reflexivity.
Defined.

(** The thread has no loop only if none was created, and at most one was. *)
Lemma loop_invariant_step (rt : Env) (c : command) (self : SimpleHTTPHandler) (st : state) :
  (event_loop st = false -> loops_created st = 0%nat) /\ (loops_created st <= 1)%nat ->
  (event_loop (snd (handle_one_request rt c self st)) = false ->
   loops_created (snd (handle_one_request rt c self st)) = 0%nat) /\
  (loops_created (snd (handle_one_request rt c self st)) <= 1)%nat.
Proof.
  intros (Hnone & Hone).
  destruct (handle_schedule rt c self st) as (agent & l & Hs & He & Hsched & _).
  destruct (schedule_counts _ _ _ Hsched) as (Hloops & _).
  unfold loops_created in *. rewrite Hs, He, !filter_app, !length_app, Hloops.
  destruct (event_loop st); destruct agent; cbn in *; split; intros; try lia;
    try discriminate; rewrite Hnone by reflexivity; lia.
Qed.

Lemma loop_invariant_serve
    (rt : Env) (requests : list (command * SimpleHTTPHandler)) (st : state) :
  (event_loop st = false -> loops_created st = 0%nat) /\ (loops_created st <= 1)%nat ->
  (loops_created (serve_forever rt requests st) <= 1)%nat.
Proof.
  revert st. induction requests as [|[c self] requests IH]; intros st Hinv.
  - exact (proj2 Hinv).
  - cbn [serve_forever].
    pose proof (loop_invariant_step rt c self st Hinv) as Hstep.
    destruct (handle_one_request rt c self st) as [[[]|e|b] st']; cbn [snd] in Hstep;
      [now apply IH | now apply IH | exact (proj2 Hstep)].
Qed.

(** X14. However many requests the listener thread handles, and whatever
    they are, it creates at most one event loop: the loop made for the first
    chat request that reaches an agent is reused by all later ones. *)
Theorem loop_created_once
    (rt : Env) (requests : list (command * SimpleHTTPHandler)) :
  (loops_created (serve_forever rt requests initial) <= 1)%nat.
Proof.
  apply loop_invariant_serve. cbn. split; [reflexivity | lia].
Qed.

(** X15. Over any sequence of requests the agent is driven at most once per
    POST: the number of coroutines run grows by no more than the number of
    POST requests handled. *)
Theorem agent_calls_bounded
    (rt : Env) (requests : list (command * SimpleHTTPHandler)) (st : state) :
  (agent_calls (serve_forever rt requests st)
   <= agent_calls st + length (filter is_POST requests))%nat.
Proof.
  revert st. induction requests as [|[c self] requests IH]; intros st.
  - cbn. lia.
  - cbn [serve_forever filter].
    destruct (handle_schedule rt c self st) as (agent & l & Hs & _ & Hsched & Hget).
    destruct (schedule_counts _ _ _ Hsched) as (_ & Hruns).
    assert (agent_calls (snd (handle_one_request rt c self st))
            <= agent_calls st + (if is_POST (c, self) then 1 else 0))%nat as Hstep.
    { unfold agent_calls. rewrite Hs, filter_app, length_app.
      destruct c; cbn; [rewrite (Hget eq_refl); cbn; lia | lia]. }
    destruct (handle_one_request rt c self st) as [[[]|e|b] st']; cbn [snd] in Hstep;
      try specialize (IH st');
      destruct (is_POST (c, self)); cbn [length]; lia.
Qed.

(** ** Port negotiation, read backwards *)

Lemma find_free_port_loop_ok
    (rt : Env) (host : string) (ports : list Z) (st st' : state) (q : Z) :
  _find_free_port_loop rt host ports st = (Ok q, st') ->
  exists before after,
    ports = (before ++ q :: after)%list /\
    Forall (bind_refused rt host) before /\
    socket_bind rt host q = Ok tt /\
    st' = probed st host (before ++ [q]).
Proof.
  revert st. induction ports as [|port ports IH]; intros st Hrun;
    cbn [_find_free_port_loop] in Hrun.
  - discriminate Hrun.
  - unfold bind in Hrun.
    destruct (socket_bind rt host port) as [[]|e|b] eqn:Hbind.
    3: { rewrite (is_port_in_use_escape rt host port st b Hbind) in Hrun.
         discriminate Hrun. }
    + rewrite (is_port_in_use_free rt host port st Hbind) in Hrun.
      cbn in Hrun. injection Hrun as <- <-.
      exists [], ports. now repeat split.
    + destruct (issubclass (cls e) socket_error) eqn:Hcls.
      * assert (bind_refused rt host port) as Hrefused by (exists e; now split).
        rewrite (is_port_in_use_refused rt host port st Hrefused) in Hrun.
        cbn [negb] in Hrun.
        destruct (IH _ Hrun) as (before & after & -> & Hbefore & Hfree & ->).
        exists (port :: before), after.
        split; [reflexivity|]. split; [now constructor|]. split; [exact Hfree|].
        now rewrite probed_probed.
      * rewrite (is_port_in_use_fatal rt host port st e Hbind Hcls) in Hrun.
        discriminate Hrun.
Qed.

Lemma find_free_port_loop_raise
    (rt : Env) (host : string) (ports : list Z) (st st' : state) (e : exn) :
  _find_free_port_loop rt host ports st = (Raise e, st') ->
  (e = mkExn RuntimeError "无法找到可用端口" /\
   Forall (bind_refused rt host) ports /\
   st' = probed st host ports)
  \/
  (exists before q after,
      ports = (before ++ q :: after)%list /\
      Forall (bind_refused rt host) before /\
      socket_bind rt host q = Raise e /\
      issubclass (cls e) socket_error = false /\
      st' = probed st host (before ++ [q])).
Proof.
  revert st. induction ports as [|port ports IH]; intros st Hrun;
    cbn [_find_free_port_loop] in Hrun.
  - unfold raise in Hrun. injection Hrun as <- <-. left.
    split; [reflexivity|]. split; [constructor|].
    unfold probed. cbn. rewrite app_nil_r. now destruct st.
  - unfold bind in Hrun.
    destruct (socket_bind rt host port) as [[]|e0|b] eqn:Hbind.
    3: { rewrite (is_port_in_use_escape rt host port st b Hbind) in Hrun.
         discriminate Hrun. }
    + rewrite (is_port_in_use_free rt host port st Hbind) in Hrun. discriminate Hrun.
    + destruct (issubclass (cls e0) socket_error) eqn:Hcls.
      * assert (bind_refused rt host port) as Hrefused by (exists e0; now split).
        rewrite (is_port_in_use_refused rt host port st Hrefused) in Hrun.
        cbn [negb] in Hrun.
        destruct (IH _ Hrun)
          as [(-> & Hall & ->) | (before & q & after & -> & Hbefore & Hq & Hfatal & ->)].
        -- left. split; [reflexivity|]. split; [now constructor|].
           now rewrite probed_probed.
        -- right. exists (port :: before), q, after.
           split; [reflexivity|]. split; [now constructor|].
           split; [exact Hq|]. split; [exact Hfatal|]. now rewrite probed_probed.
      * rewrite (is_port_in_use_fatal rt host port st e0 Hbind Hcls) in Hrun.
        injection Hrun as <- <-. right. exists [], port, ports.
        now repeat split.
Qed.

Lemma find_free_port_loop_escape
    (rt : Env) (host : string) (ports : list Z) (st st' : state) (b : base_exception) :
  _find_free_port_loop rt host ports st = (Escape b, st') ->
  exists before q after,
    ports = (before ++ q :: after)%list /\
    Forall (bind_refused rt host) before /\
    socket_bind rt host q = Escape b /\
    st' = probed st host (before ++ [q]).
Proof.
  revert st. induction ports as [|port ports IH]; intros st Hrun;
    cbn [_find_free_port_loop] in Hrun.
  - discriminate Hrun.
  - unfold bind in Hrun.
    destruct (socket_bind rt host port) as [[]|e|b0] eqn:Hbind.
    + rewrite (is_port_in_use_free rt host port st Hbind) in Hrun. discriminate Hrun.
    + destruct (issubclass (cls e) socket_error) eqn:Hcls.
      * assert (bind_refused rt host port) as Hrefused by (exists e; now split).
        rewrite (is_port_in_use_refused rt host port st Hrefused) in Hrun.
        cbn [negb] in Hrun.
        destruct (IH _ Hrun) as (before & q & after & -> & Hbefore & Hq & ->).
        exists (port :: before), q, after.
        split; [reflexivity|]. split; [now constructor|]. split; [exact Hq|].
        now rewrite probed_probed.
      * rewrite (is_port_in_use_fatal rt host port st e Hbind Hcls) in Hrun.
        discriminate Hrun.
    + rewrite (is_port_in_use_escape rt host port st b0 Hbind) in Hrun.
      injection Hrun as <- <-. exists [], port, ports. now repeat split.
Qed.

Lemma range_app_inv (a b : Z) (before : list Z) (q : Z) (after : list Z) :
  Py.range a b = (before ++ q :: after)%list ->
  before = Py.range a q /\ a <= q < b.
Proof.
  revert a. induction before as [|x before IH]; intros a Hsplit.
  - destruct (Z_lt_le_dec a b) as [Hab|Hab].
    + rewrite (range_cons a b Hab) in Hsplit. injection Hsplit as -> _.
      split; [now rewrite range_nil by lia | lia].
    + rewrite range_nil in Hsplit by lia. discriminate Hsplit.
  - destruct (Z_lt_le_dec a b) as [Hab|Hab].
    + rewrite (range_cons a b Hab) in Hsplit. injection Hsplit as <- Hrest.
      destruct (IH _ Hrest) as (-> & Hq).
      split; [now rewrite (range_cons a q) by lia | lia].
    + rewrite range_nil in Hsplit by lia. discriminate Hsplit.
Qed.

Lemma refused_below (rt : Env) (host : string) (a q : Z) :
  Forall (bind_refused rt host) (Py.range a q) ->
  forall j, a <= j < q -> bind_refused rt host j.
Proof.
  intros Hall j Hj. rewrite Forall_forall in Hall. apply Hall. now apply range_In.
Qed.

(** X16. When the preferred port is free it is the one returned, and it is
    the only port probed. *)
Theorem free_preferred_port_is_kept
    (rt : Env) (host : option string) (port : option Z) (st : state) :
  socket_bind rt (host_or_default rt host) (port_or_default rt port) = Ok tt ->
  run_acquire_port rt host port st =
  (Ok (host_or_default rt host, port_or_default rt port),
   probed st (host_or_default rt host) [port_or_default rt port]).
Proof.
  intros Hfree. unfold run_acquire_port, bind.
  now rewrite (is_port_in_use_free rt _ _ st Hfree).
Qed.

(** Every port free and no address asked for: the configured one is used. *)
Lemma free_preferred_port_is_kept_witness :
  run_acquire_port Scenario.plain None None initial =
  (Ok ("127.0.0.1", 8000), probed initial "127.0.0.1" [8000]).
Proof.
  apply (free_preferred_port_is_kept Scenario.plain None None initial). reflexivity.
Defined.

(** X17. A port returned by [_find_free_port] is one of the 99 ports after
    the start port, its probe bind succeeded, every port between the start
    port and it was refused with a socket.error, and the ports probed are
    exactly those from start+1 to the port returned, in that order. *)
Theorem find_free_port_sound
    (rt : Env) (host : string) (start_port q : Z) (st st' : state) :
  _find_free_port rt host start_port st = (Ok q, st') ->
  start_port + 1 <= q <= start_port + 99 /\
  socket_bind rt host q = Ok tt /\
  (forall j, start_port + 1 <= j < q -> bind_refused rt host j) /\
  st' = probed st host (Py.range (start_port + 1) (q + 1)).
Proof.
  unfold _find_free_port. intros Hrun.
  destruct (find_free_port_loop_ok rt host _ st st' q Hrun)
    as (before & after & Hsplit & Hbefore & Hfree & ->).
  destruct (range_app_inv _ _ _ _ _ Hsplit) as (-> & Hq).
  split; [lia|]. split; [exact Hfree|]. split.
  - now apply refused_below.
  - now rewrite range_snoc by lia.
Qed.

(** Ports 8001 and 8002 taken, searching from 8000. *)
Lemma find_free_port_sound_witness :
  8000 + 1 <= 8003 <= 8000 + 99 /\
  socket_bind (Scenario.world (Scenario.refusing 8000 8002 Scenario.address_in_use))
    "127.0.0.1" 8003 = Ok tt /\
  (forall j, 8000 + 1 <= j < 8003 ->
             bind_refused (Scenario.world (Scenario.refusing 8000 8002 Scenario.address_in_use))
               "127.0.0.1" j) /\
  probed initial "127.0.0.1" [8001; 8002; 8003] =
  probed initial "127.0.0.1" (Py.range (8000 + 1) (8003 + 1)).
Proof.
  apply (find_free_port_sound
           (Scenario.world (Scenario.refusing 8000 8002 Scenario.address_in_use))
           "127.0.0.1" 8000 8003 initial (probed initial "127.0.0.1" [8001; 8002; 8003])).
  vm_compute. reflexivity.
Defined.

(** X18. When [_find_free_port] fails, either all 99 ports were probed and
    refused and the error is the RuntimeError of an exhausted search, or the
    error is the one raised by the first probe bind that failed with
    something else than a socket.error; that error is propagated as it is,
    and no port after it is probed. *)
Theorem find_free_port_failure
    (rt : Env) (host : string) (start_port : Z) (st st' : state) (e : exn) :
  _find_free_port rt host start_port st = (Raise e, st') ->
  (e = mkExn RuntimeError "无法找到可用端口" /\
   (forall j, start_port + 1 <= j < start_port + 100 -> bind_refused rt host j) /\
   st' = probed st host (Py.range (start_port + 1) (start_port + 100)))
  \/
  (exists q,
      start_port + 1 <= q <= start_port + 99 /\
      socket_bind rt host q = Raise e /\
      issubclass (cls e) socket_error = false /\
      (forall j, start_port + 1 <= j < q -> bind_refused rt host j) /\
      st' = probed st host (Py.range (start_port + 1) (q + 1))).
Proof.
  unfold _find_free_port. intros Hrun.
  destruct (find_free_port_loop_raise rt host _ st st' e Hrun)
    as [(-> & Hall & ->) | (before & q & after & Hsplit & Hbefore & Hq & Hfatal & ->)].
  - left. split; [reflexivity|]. split; [now apply refused_below | reflexivity].
  - right. exists q.
    destruct (range_app_inv _ _ _ _ _ Hsplit) as (-> & Hbound).
    split; [lia|]. split; [exact Hq|]. split; [exact Hfatal|]. split.
    + now apply refused_below.
    + now rewrite range_snoc by lia.
Qed.

(** Searching from 65534 with the last port taken: the probe of 65536 is
    not a socket.error and ends the search. *)
Lemma find_free_port_failure_witness :
  (mkExn OverflowError "bind(): port must be 0-65535." =
   mkExn RuntimeError "无法找到可用端口" /\
   (forall j, 65534 + 1 <= j < 65534 + 100 ->
              bind_refused (Cases.world (Cases.bind_near_top 65534) Scenario.free)
                "127.0.0.1" j) /\
   probed initial "127.0.0.1" [65535; 65536] =
   probed initial "127.0.0.1" (Py.range (65534 + 1) (65534 + 100)))
  \/
  (exists q,
      65534 + 1 <= q <= 65534 + 99 /\
      socket_bind (Cases.world (Cases.bind_near_top 65534) Scenario.free) "127.0.0.1" q =
      Raise (mkExn OverflowError "bind(): port must be 0-65535.") /\
      issubclass (cls (mkExn OverflowError "bind(): port must be 0-65535.")) socket_error
      = false /\
      (forall j, 65534 + 1 <= j < q ->
                 bind_refused (Cases.world (Cases.bind_near_top 65534) Scenario.free)
                   "127.0.0.1" j) /\
      probed initial "127.0.0.1" [65535; 65536] =
      probed initial "127.0.0.1" (Py.range (65534 + 1) (q + 1))).
Proof.
  apply (find_free_port_failure
           (Cases.world (Cases.bind_near_top 65534) Scenario.free)
           "127.0.0.1" 65534 initial (probed initial "127.0.0.1" [65535; 65536])
           (mkExn OverflowError "bind(): port must be 0-65535.")).
  vm_compute. reflexivity.
Defined.

(** X19. Whatever the outcome, [_find_free_port] binds probe sockets only on
    consecutive ports starting right after the start port, at least one and
    at most 99 of them, and touches nothing else. *)
Theorem probes_stay_in_window
    (rt : Env) (host : string) (start_port : Z) (st : state) :
  exists n,
    1 <= n <= 99 /\
    snd (_find_free_port rt host start_port st) =
    probed st host (Py.range (start_port + 1) (start_port + 1 + n)).
Proof.
  unfold _find_free_port.
  destruct (_find_free_port_loop rt host
              (Py.range (start_port + 1) (start_port + 100)) st)
    as [[q|e|b] st'] eqn:Hrun; cbn [snd].
  - destruct (find_free_port_loop_ok rt host _ st st' q Hrun)
      as (before & after & Hsplit & _ & _ & ->).
    destruct (range_app_inv _ _ _ _ _ Hsplit) as (-> & Hq).
    exists (q - start_port). split; [lia|].
    rewrite <- range_snoc by lia. f_equal. f_equal. lia.
  - destruct (find_free_port_loop_raise rt host _ st st' e Hrun)
      as [(_ & _ & ->) | (before & q & after & Hsplit & _ & _ & _ & ->)].
    + exists 99. split; [lia|]. f_equal. f_equal. lia.
    + destruct (range_app_inv _ _ _ _ _ Hsplit) as (-> & Hq).
      exists (q - start_port). split; [lia|].
      rewrite <- range_snoc by lia. f_equal. f_equal. lia.
  - destruct (find_free_port_loop_escape rt host _ st st' b Hrun)
      as (before & q & after & Hsplit & _ & _ & ->).
    destruct (range_app_inv _ _ _ _ _ Hsplit) as (-> & Hq).
    exists (q - start_port). split; [lia|].
    rewrite <- range_snoc by lia. f_equal. f_equal. lia.
Qed.

(** What the first part of [run] does, outcome by outcome. *)
Lemma run_acquire_port_cases
    (rt : Env) (host : option string) (port : option Z) (st : state) :
  exists r ports,
    run_acquire_port rt host port st = (r, probed st (host_or_default rt host) ports) /\
    forall h q,
      r = Ok (h, q) ->
      h = host_or_default rt host /\
      port_or_default rt port <= q <= port_or_default rt port + 99 /\
      socket_bind rt h q = Ok tt /\
      (forall j, port_or_default rt port <= j < q -> bind_refused rt h j) /\
      ports = Py.range (port_or_default rt port) (q + 1).
Proof.
  set (h := host_or_default rt host). set (p := port_or_default rt port).
  unfold run_acquire_port. fold h p. unfold bind at 1.
  destruct (socket_bind rt h p) as [[]|e|b] eqn:Hbind.
  3: { rewrite (is_port_in_use_escape rt h p st b Hbind). cbn.
       eexists _, [p]. split; [reflexivity|]. intros h' q Heq. discriminate Heq. }
  - rewrite (is_port_in_use_free rt h p st Hbind). cbn.
    eexists _, [p]. split; [reflexivity|]. intros h' q Heq. injection Heq as <- <-.
    split; [reflexivity|]. split; [lia|]. split; [exact Hbind|].
    split; [intros j Hj; lia|].
    now rewrite (range_cons p (p + 1)), range_nil by lia.
  - destruct (issubclass (cls e) socket_error) eqn:Hcls.
    + assert (bind_refused rt h p) as Hrefused by (exists e; now split).
      rewrite (is_port_in_use_refused rt h p st Hrefused). cbv beta iota.
      unfold bind, _find_free_port.
      destruct (_find_free_port_loop rt h (Py.range (p + 1) (p + 100)) (probed st h [p]))
        as [[q|e'|b] st'] eqn:Hrun.
      3: { destruct (find_free_port_loop_escape rt h _ _ st' b Hrun)
             as (before & q & after & _ & _ & _ & ->).
           cbn. rewrite probed_probed. eexists _, _. split; [reflexivity|].
           intros h' q' Heq. discriminate Heq. }
      * destruct (find_free_port_loop_ok rt h _ _ st' q Hrun)
          as (before & after & Hsplit & Hbefore & Hfree & ->).
        destruct (range_app_inv _ _ _ _ _ Hsplit) as (-> & Hq).
        cbn. rewrite probed_probed. eexists _, _. split; [reflexivity|].
        intros h' q' Heq. injection Heq as <- <-.
        split; [reflexivity|]. split; [lia|]. split; [exact Hfree|]. split.
        -- intros j Hj. destruct (Z.eq_dec j p) as [->|Hne]; [exact Hrefused|].
           apply (refused_below rt h (p + 1) q Hbefore). lia.
        -- rewrite (range_cons p (q + 1)) by lia. cbn. f_equal.
           now rewrite range_snoc by lia.
      * destruct (find_free_port_loop_raise rt h _ _ st' e' Hrun)
          as [(_ & _ & ->) | (before & q & after & _ & _ & _ & _ & ->)];
          cbn; rewrite probed_probed; eexists _, _; (split; [reflexivity|]);
          intros h' q' Heq; discriminate Heq.
    + rewrite (is_port_in_use_fatal rt h p st e Hbind Hcls). cbn.
      eexists _, [p]. split; [reflexivity|]. intros h' q Heq. discriminate Heq.
Qed.

(** X20. An address returned by the first part of [run] has the requested
    host (or the configured one), and a port between the preferred port and
    preferred+99 whose probe bind succeeded, every port before it from the
    preferred one on having been refused; the ports probed are exactly those
    from the preferred port to the one returned. *)
Theorem acquired_port_was_probed_free
    (rt : Env) (host : option string) (port : option Z) (st st' : state)
    (h : string) (q : Z) :
  run_acquire_port rt host port st = (Ok (h, q), st') ->
  h = host_or_default rt host /\
  port_or_default rt port <= q <= port_or_default rt port + 99 /\
  socket_bind rt h q = Ok tt /\
  (forall j, port_or_default rt port <= j < q -> bind_refused rt h j) /\
  st' = probed st h (Py.range (port_or_default rt port) (q + 1)).
Proof.
  intros Hrun.
  destruct (run_acquire_port_cases rt host port st) as (r & ports & Hcase & Hok).
  rewrite Hrun in Hcase. injection Hcase as <- ->.
  destruct (Hok h q eq_refl) as (Hh & Hq & Hfree & Hbefore & ->).
  subst h. now repeat split.
Qed.

(** Ports 8000-8002 taken. *)
Lemma acquired_port_was_probed_free_witness :
  "127.0.0.1" =
  host_or_default (Scenario.world (Scenario.refusing 8000 8002 Scenario.address_in_use)) None /\
  port_or_default (Scenario.world (Scenario.refusing 8000 8002 Scenario.address_in_use)) None
  <= 8003 <=
  port_or_default (Scenario.world (Scenario.refusing 8000 8002 Scenario.address_in_use)) None
  + 99 /\
  socket_bind (Scenario.world (Scenario.refusing 8000 8002 Scenario.address_in_use))
    "127.0.0.1" 8003 = Ok tt /\
  (forall j,
      port_or_default (Scenario.world (Scenario.refusing 8000 8002 Scenario.address_in_use))
        None <= j < 8003 ->
      bind_refused (Scenario.world (Scenario.refusing 8000 8002 Scenario.address_in_use))
        "127.0.0.1" j) /\
  probed initial "127.0.0.1" [8000; 8001; 8002; 8003] =
  probed initial "127.0.0.1"
    (Py.range
       (port_or_default
          (Scenario.world (Scenario.refusing 8000 8002 Scenario.address_in_use)) None)
       (8003 + 1)).
Proof.
  apply (acquired_port_was_probed_free
           (Scenario.world (Scenario.refusing 8000 8002 Scenario.address_in_use))
           None None initial (probed initial "127.0.0.1" [8000; 8001; 8002; 8003])
           "127.0.0.1" 8003).
  vm_compute. reflexivity.
Defined.

(** ** Start-up *)

(** X21. [run] records a listener only when the HTTP server could be created,
    and then on an address whose probe bind had succeeded, with a port
    between the preferred port and preferred+99.  When [run] fails, whether
    in the negotiation or when creating the server, and whatever is thrown,
    no listener is recorded. *)
Theorem listener_only_on_probed_port
    (rt : Env) (host : option string) (port : option Z) (st : state) :
  match run rt host port st with
  | (Ok _, st') =>
      exists q,
        httpd st' = Some (host_or_default rt host, q) /\
        port_or_default rt port <= q <= port_or_default rt port + 99 /\
        socket_bind rt (host_or_default rt host) q = Ok tt /\
        HTTPServer_bind rt (host_or_default rt host) q = Ok tt
  | (Raise _, st') => httpd st' = httpd st
  | (Escape _, st') => httpd st' = httpd st
  end.
Proof.
  unfold run, bind at 1.
  destruct (run_acquire_port_cases rt host port st) as (r & ports & Hcase & Hok).
  rewrite Hcase. destruct r as [[h q]|e|b]; [|reflexivity|reflexivity].
  destruct (Hok h q eq_refl) as (-> & Hq & Hfree & _ & _).
  unfold try_except, bind, lift, except, set_httpd. cbn [fst snd].
  destruct (HTTPServer_bind rt (host_or_default rt host) q) as [[]|e|b] eqn:Hlisten.
  - cbn. exists q. now repeat split.
  - rewrite issubclass_Exception. reflexivity.
  - reflexivity.
Qed.

(** X22. A failure to create the HTTP server after a successful negotiation
    is final: [run] re-raises it, records no listener and probes no further
    port. *)
Theorem listener_failure_is_final
    (rt : Env) (host : option string) (port : option Z) (st st1 : state)
    (h : string) (q : Z) (e : exn) :
  run_acquire_port rt host port st = (Ok (h, q), st1) ->
  HTTPServer_bind rt h q = Raise e ->
  run rt host port st = (Raise e, st1) /\
  httpd st1 = httpd st /\
  probes st1 = (probes st ++ map (pair h) (Py.range (port_or_default rt port) (q + 1)))%list.
Proof.
  intros Hport Hlisten.
  split; [exact (run_listener_failure rt host port st st1 h q e Hport Hlisten)|].
  destruct (run_acquire_port_cases rt host port st) as (r & ports & Hcase & Hok).
  rewrite Hport in Hcase. injection Hcase as <- ->.
  destruct (Hok h q eq_refl) as (<- & _ & _ & _ & ->). now split.
Qed.

(** The probe of 8000 succeeds, then another process takes the port before
    the server is created. *)
Lemma listener_failure_is_final_witness :
  run (Cases.world Scenario.free (Scenario.refusing 8000 8000 Scenario.address_in_use))
    None None initial =
  (Raise Scenario.address_in_use, probed initial "127.0.0.1" [8000]) /\
  httpd (probed initial "127.0.0.1" [8000]) = httpd initial /\
  probes (probed initial "127.0.0.1" [8000]) =
  (probes initial
     ++ map (pair "127.0.0.1")
          (Py.range
             (port_or_default
                (Cases.world Scenario.free
                   (Scenario.refusing 8000 8000 Scenario.address_in_use)) None)
             (8000 + 1)))%list.
Proof.
  apply (listener_failure_is_final
           (Cases.world Scenario.free (Scenario.refusing 8000 8000 Scenario.address_in_use))
           None None initial (probed initial "127.0.0.1" [8000]) "127.0.0.1" 8000
           Scenario.address_in_use);
    reflexivity.
Defined.
